(** * Staging security validators of the MCP server (app/mcp/security.py)

    A shallow embedding of the validators and of the path guard
    [get_safe_staging_path], followed by the properties of the staging
    specification that they decide.

    Conventions of the embedding.
    - A Python [str] is a list of Unicode code points ([pystr]).
    - A raised exception is a value of [exn]; a function that may raise
      returns an [outcome].
    - [pathlib] is modelled with the POSIX flavour ([PurePosixPath]), as
      documented for CPython 3.8 to 3.12.
    - The interpreter's filesystem calls ([Path.resolve], [Path.is_symlink])
      are a record of functions, [FileSystem], so that every statement about
      the guard holds for every behaviour of the filesystem; the examples
      use filesystems given by tables of answers.
    - The configuration read through [get_settings()], the table
      [IGNORE_PATTERNS] of the ingestion module and the interpreter's
      [fnmatch.fnmatch] are variables of the sections that use them. *)

From Stdlib Require Import String Ascii.
From Stdlib Require Import List NArith Bool Arith Lia.
Import ListNotations.

Set Implicit Arguments.

(* ================================================================== *)
(** ** Python strings *)
(* ================================================================== *)

Module Str.

Definition char := N.
Bind Scope N_scope with char.
Definition pystr := list char.

(** A literal with code points below 256. *)
Definition lit (s : string) : pystr :=
  map N_of_ascii (list_ascii_of_string s).

Definition ch_nul : char := 0%N.
Definition ch_newline : char := 10%N.
Definition ch_dquote : char := 34%N.
Definition ch_hyphen : char := 45%N.
Definition ch_dot : char := 46%N.
Definition ch_slash : char := 47%N.
Definition ch_backslash : char := 92%N.
Definition ch_underscore : char := 95%N.

Definition between (lo hi c : char) : bool := ((lo <=? c) && (c <=? hi))%N.

(** [str.isspace] on one code point: the white-space table of CPython
    ([_PyUnicode_IsWhitespace]). *)
Definition isspace (c : char) : bool :=
  between 9 13 c || between 28 32 c || (c =? 133)%N || (c =? 160)%N
  || (c =? 5760)%N || between 8192 8202 c || (c =? 8232)%N || (c =? 8233)%N
  || (c =? 8239)%N || (c =? 8287)%N || (c =? 12288)%N.

Fixpoint eqb (s t : pystr) : bool :=
  match s, t with
  | [], [] => true
  | a :: s', b :: t' => (a =? b)%N && eqb s' t'
  | _, _ => false
  end.

(** [s.startswith(p)] *)
Fixpoint startswith (s p : pystr) {struct p} : bool :=
  match p, s with
  | [], _ => true
  | a :: p', b :: s' => (a =? b)%N && startswith s' p'
  | _ :: _, [] => false
  end.

(** [p in s] for strings: [p] occurs as a substring of [s]. *)
Fixpoint contains (p s : pystr) : bool :=
  startswith s p ||
  match s with
  | [] => false
  | _ :: s' => contains p s'
  end.

Fixpoint dropwhile (f : char -> bool) (s : pystr) : pystr :=
  match s with
  | [] => []
  | c :: s' => if f c then dropwhile f s' else s
  end.

Definition lstrip_by (f : char -> bool) (s : pystr) : pystr := dropwhile f s.
Definition rstrip_by (f : char -> bool) (s : pystr) : pystr :=
  rev (dropwhile f (rev s)).
Definition strip_by (f : char -> bool) (s : pystr) : pystr :=
  rstrip_by f (lstrip_by f s).

(** [s.strip()] *)
Definition strip (s : pystr) : pystr := strip_by isspace s.
(** [s.strip(c)] and [s.rstrip(c)] for a one-character argument. *)
Definition strip_char (c : char) (s : pystr) : pystr := strip_by (N.eqb c) s.
Definition rstrip_char (c : char) (s : pystr) : pystr := rstrip_by (N.eqb c) s.

(** [s.replace(old, new)] for a non-empty [old]: occurrences are replaced
    from the left and do not overlap.  [skip] counts the characters of an
    occurrence already replaced that are still to be passed over. *)
Fixpoint replace_from (old new : pystr) (skip : nat) (s : pystr) : pystr :=
  match s with
  | [] => []
  | c :: s' =>
      match skip with
      | S k => replace_from old new k s'
      | O =>
          if startswith s old
          then new ++ replace_from old new (length old - 1) s'
          else c :: replace_from old new 0 s'
      end
  end.

Definition replace (old new s : pystr) : pystr := replace_from old new 0 s.

(** [s.split(sep)] for a one-character separator: never an empty list. *)
Fixpoint split (sep : char) (s : pystr) : list pystr :=
  match s with
  | [] => [[]]
  | c :: s' =>
      if (c =? sep)%N then [] :: split sep s'
      else match split sep s' with
           | w :: ws => (c :: w) :: ws
           | [] => [[c]]
           end
  end.

(** [s.lower()].  Both call sites reach it only after a regular expression
    has restricted the string to ASCII (and possibly one final newline), so
    only the ASCII letters are mapped. *)
Definition is_ascii (c : char) : bool := (c <? 128)%N.
Definition lower_char (c : char) : char :=
  if between 65 90 c then (c + 32)%N else c.
Definition lower (s : pystr) : pystr := map lower_char s.

(** Membership of a string in a list or set of strings. *)
Definition mem (s : pystr) (l : list pystr) : bool := existsb (eqb s) l.

End Str.

Import Str.

(* ================================================================== *)
(** ** Paths ([pathlib.PurePosixPath]) *)
(* ================================================================== *)

Inductive anchor := Relative | Root | DoubleRoot.

Record Path := mkPath { path_anchor : anchor; path_names : list pystr }.

Definition anchor_eqb (a b : anchor) : bool :=
  match a, b with
  | Relative, Relative | Root, Root | DoubleRoot, DoubleRoot => true
  | _, _ => false
  end.

Fixpoint names_eqb (l m : list pystr) : bool :=
  match l, m with
  | [], [] => true
  | a :: l', b :: m' => Str.eqb a b && names_eqb l' m'
  | _, _ => false
  end.

(** [p == q] *)
Definition path_eqb (p q : Path) : bool :=
  anchor_eqb (path_anchor p) (path_anchor q)
  && names_eqb (path_names p) (path_names q).

(** The names of a path string: the text between slashes, without the empty
    pieces and without [.] pieces. *)
Definition parse_names (s : pystr) : list pystr :=
  filter (fun n => negb (Str.eqb n []) && negb (Str.eqb n [ch_dot]))
         (split ch_slash s).

Definition parse_anchor (s : pystr) : anchor :=
  if startswith s [ch_slash; ch_slash] && negb (startswith s [ch_slash; ch_slash; ch_slash])
  then DoubleRoot
  else if startswith s [ch_slash] then Root else Relative.

(** [Path(s)] *)
Definition path_of_str (s : pystr) : Path :=
  mkPath (parse_anchor s) (parse_names s).

(** [p.parts] *)
Definition parts (p : Path) : list pystr :=
  match path_anchor p with
  | Relative => []
  | Root => [[ch_slash]]
  | DoubleRoot => [[ch_slash; ch_slash]]
  end ++ path_names p.

(** [p.name] *)
Definition name (p : Path) : pystr := last (path_names p) [].

(** [p / s] for a string [s]: an anchored [s] replaces [p]. *)
Definition joinpath (p : Path) (s : pystr) : Path :=
  match parse_anchor s with
  | Relative => mkPath (path_anchor p) (path_names p ++ parse_names s)
  | _ => path_of_str s
  end.

(** [p.parent]: the anchor and the root-less empty path are their own
    parents. *)
Definition parent (p : Path) : Path :=
  mkPath (path_anchor p) (removelast (path_names p)).

Fixpoint names_prefix (d l : list pystr) : bool :=
  match d, l with
  | [], _ => true
  | a :: d', b :: l' => Str.eqb a b && names_prefix d' l'
  | _ :: _, [] => false
  end.

(** [p.relative_to(d)] returns (a value the guard discards) exactly when [d]
    is [p] or one of its parents, and raises [ValueError] otherwise. *)
Definition is_relative_to (p d : Path) : bool :=
  anchor_eqb (path_anchor p) (path_anchor d)
  && names_prefix (path_names d) (path_names p).

(* ================================================================== *)
(** ** Exceptions and outcomes *)
(* ================================================================== *)

(** Exceptions of the interpreter that a [pathlib] call can raise. *)
Inductive io_exn :=
| OSError (errno : N)
| ValueError
| RuntimeError.

Definition EACCES : N := 13%N.

(** What a raised [ValidationError] reports (one constructor per [raise]). *)
Inductive validation_msg :=
| ProjectIdRequired
| InvalidProjectIdFormat (project_id : pystr)
| ProjectIdLeadingChar (project_id : pystr)
| ProjectIdReserved (project_id : pystr)
| FilenameRequired
| FilenameEmptyAfterNormalization
| InvalidFilenameFormat (filename : pystr)
| EmptyPathComponent
| ReservedNameInPath (part : pystr)
| HiddenDirectory (part : pystr)
| MatchesIgnorePattern (filename : pystr)
| RepoUrlRequired
| RepoUrlNotHttpsGithub
| RepoUrlNoOwnerRepo.

(** What a raised [SecurityError] reports. *)
Inductive security_msg :=
| ForbiddenPattern (pattern : pystr)
| InvalidPath (e : io_exn)
| PathTraversal (filename : pystr)
| SymlinkDetected (current : Path).

Inductive exn :=
| ValidationError (m : validation_msg)
| SecurityError (m : security_msg)
| Uncaught (e : io_exn).

Inductive outcome (A : Type) :=
| Return (a : A)
| Raise (e : exn).
Arguments Raise {A} e.

Definition bind {A B : Type} (o : outcome A) (k : A -> outcome B) : outcome B :=
  match o with
  | Return a => k a
  | Raise e => Raise e
  end.

Notation "x <- o ;; k" := (bind o (fun x => k))
  (at level 61, o at next level, right associativity).

Definition is_format_error {A} (o : outcome A) : bool :=
  match o with Raise (ValidationError _) => true | _ => false end.
Definition is_security_error {A} (o : outcome A) : bool :=
  match o with Raise (SecurityError _) => true | _ => false end.
Definition returns {A} (o : outcome A) : bool :=
  match o with Return _ => true | Raise _ => false end.
(** The call returned the string [r]. *)
Definition returns_str (o : outcome pystr) (r : pystr) : bool :=
  match o with Return r' => Str.eqb r' r | Raise _ => false end.

(* ================================================================== *)
(** ** Module constants *)
(* ================================================================== *)

Definition is_alnum (c : char) : bool :=
  between 97 122 c || between 65 90 c || between 48 57 c.

(** The class [[a-zA-Z0-9_-]]. *)
Definition project_id_char (c : char) : bool :=
  is_alnum c || (c =? ch_underscore)%N || (c =? ch_hyphen)%N.
(** The class [[a-zA-Z0-9._-]]. *)
Definition filename_first_char (c : char) : bool :=
  is_alnum c || (c =? ch_dot)%N || (c =? ch_underscore)%N || (c =? ch_hyphen)%N.
(** The class [[a-zA-Z0-9._/-]]. *)
Definition filename_char (c : char) : bool :=
  filename_first_char c || (c =? ch_slash)%N.

(** The anchor [$] of Python's [re] without [MULTILINE], applied to what is
    left of the string: it holds at the end of the string and just before a
    newline that ends the string. *)
Definition at_dollar (rest : pystr) : bool :=
  Str.eqb rest [] || Str.eqb rest [ch_newline].

Fixpoint takewhile (f : char -> bool) (s : pystr) : pystr :=
  match s with
  | [] => []
  | c :: s' => if f c then c :: takewhile f s' else []
  end.

(** [VALID_PROJECT_ID.match(s)] for [^[a-zA-Z0-9_-]{3,64}$]: the longest run
    of class characters is the only one the anchor can follow. *)
Definition VALID_PROJECT_ID (s : pystr) : bool :=
  let body := takewhile project_id_char s in
  (3 <=? length body) && (length body <=? 64)
  && at_dollar (dropwhile project_id_char s).

(** [VALID_FILENAME.match(s)] for [^[a-zA-Z0-9._-][a-zA-Z0-9._/-]{0,254}$]. *)
Definition VALID_FILENAME (s : pystr) : bool :=
  match s with
  | [] => false
  | c :: s' =>
      filename_first_char c
      && (length (takewhile filename_char s') <=? 254)
      && at_dollar (dropwhile filename_char s')
  end.

Definition FORBIDDEN_PATTERNS : list pystr :=
  [ [ch_dot; ch_dot]; [ch_nul]; lit "~"; lit ":"; lit "*"; lit "?";
    [ch_dquote]; lit "<"; lit ">"; lit "|" ].

Definition RESERVED_NAMES : list pystr :=
  map lit
    [ "con"; "prn"; "aux"; "nul";
      "com1"; "com2"; "com3"; "com4"; "com5"; "com6"; "com7"; "com8"; "com9";
      "lpt1"; "lpt2"; "lpt3"; "lpt4"; "lpt5"; "lpt6"; "lpt7"; "lpt8"; "lpt9" ]%string.

(* ================================================================== *)
(** ** Identifier validators *)
(* ================================================================== *)

Definition validate_project_id (project_id : pystr) : outcome pystr :=
  match project_id with
  | [] => Raise (ValidationError ProjectIdRequired)
  | _ =>
      let project_id := strip project_id in
      if negb (VALID_PROJECT_ID project_id) then
        Raise (ValidationError (InvalidProjectIdFormat project_id))
      else if startswith project_id [ch_hyphen] || startswith project_id [ch_dot] then
        Raise (ValidationError (ProjectIdLeadingChar project_id))
      else if mem (lower project_id) RESERVED_NAMES then
        Raise (ValidationError (ProjectIdReserved project_id))
      else Return project_id
  end.

Definition github_prefix : pystr := lit "https://github.com/".

Definition validate_repo_url (repo_url : pystr) : outcome pystr :=
  match repo_url with
  | [] => Raise (ValidationError RepoUrlRequired)
  | _ =>
      let repo_url := strip repo_url in
      if negb (startswith repo_url github_prefix) then
        Raise (ValidationError RepoUrlNotHttpsGithub)
      else
        let parts :=
          split ch_slash (rstrip_char ch_slash (replace github_prefix [] repo_url)) in
        if length parts <? 2 then
          Raise (ValidationError RepoUrlNoOwnerRepo)
        else Return repo_url
  end.

(* ================================================================== *)
(** ** Filename sanitizer and ignore-pattern matcher *)
(* ================================================================== *)

(** The [*] / [?] fragment of [fnmatch.fnmatchcase]: [*] matches any run of
    characters, [?] any one character, every other character itself.  A [[]
    is taken literally, which is what [fnmatch] does only when no []] closes
    it; this matcher is used to instantiate the section below on patterns
    without brackets. *)
Fixpoint glob_match (pat : pystr) : pystr -> bool :=
  match pat with
  | [] => fun s => Str.eqb s []
  | c :: pat' =>
      if (c =? 42)%N then
        fix star (s : pystr) : bool :=
          glob_match pat' s
          || match s with
             | [] => false
             | _ :: s' => star s'
             end
      else if (c =? 63)%N then
        fun s => match s with
                 | [] => false
                 | _ :: s' => glob_match pat' s'
                 end
      else
        fun s => match s with
                 | [] => false
                 | d :: s' => (c =? d)%N && glob_match pat' s'
                 end
  end.

(** [fnmatch.fnmatch(name, pat)], arguments in Python's order. *)
Definition posix_fnmatch (name pat : pystr) : bool := glob_match pat name.

Definition dotfile_allowlist : list pystr :=
  [lit ".gitignore"; lit ".gitattributes"].

(** The body of the loop over [filename.split('/')]: the message of the
    [ValidationError] it raises for [part], if any. *)
Definition check_part (part : pystr) : option validation_msg :=
  match part with
  | [] => Some EmptyPathComponent
  | _ =>
      if mem (lower part) RESERVED_NAMES then Some (ReservedNameInPath part)
      else if startswith part [ch_dot] && negb (mem part dotfile_allowlist)
      then
        if negb (contains [ch_dot] (tl part)) then Some (HiddenDirectory part)
        else None
      else None
  end.

Fixpoint check_parts (ps : list pystr) : option validation_msg :=
  match ps with
  | [] => None
  | part :: ps' =>
      match check_part part with
      | Some m => Some m
      | None => check_parts ps'
      end
  end.

(** The first three statements after the emptiness test: trim, turn
    backslashes into slashes, drop leading and trailing slashes. *)
Definition normalize_filename (filename : pystr) : pystr :=
  strip_char ch_slash (replace [ch_backslash] [ch_slash] (strip filename)).

Section Sanitizer.

(** [IGNORE_PATTERNS] of [app.ingest.local_loader], and the interpreter's
    [fnmatch.fnmatch]. *)
Variable IGNORE_PATTERNS : list pystr.
Variable fnmatch : pystr -> pystr -> bool.

Definition _matches_ignore_pattern (filename : pystr) : bool :=
  let path := path_of_str filename in
  existsb
    (fun pattern =>
       existsb (fun part => fnmatch part pattern) (parts path)
       || fnmatch filename pattern
       || fnmatch (name path) pattern)
    IGNORE_PATTERNS.

Definition validate_filename (filename : pystr) : outcome pystr :=
  match filename with
  | [] => Raise (ValidationError FilenameRequired)
  | _ =>
      let filename := normalize_filename filename in
      match filename with
      | [] => Raise (ValidationError FilenameEmptyAfterNormalization)
      | _ =>
          match find (fun pattern => contains pattern filename)
                     FORBIDDEN_PATTERNS with
          | Some pattern => Raise (SecurityError (ForbiddenPattern pattern))
          | None =>
              if negb (VALID_FILENAME filename) then
                Raise (ValidationError (InvalidFilenameFormat filename))
              else
                match check_parts (split ch_slash filename) with
                | Some m => Raise (ValidationError m)
                | None =>
                    if _matches_ignore_pattern filename then
                      Raise (ValidationError (MatchesIgnorePattern filename))
                    else Return filename
                end
          end
      end
  end.

End Sanitizer.

(* ================================================================== *)
(** ** Path resolver / escape guard *)
(* ================================================================== *)

(** Result of a [pathlib] call that touches the filesystem. *)
Inductive io_result (A : Type) :=
| Done (a : A)
| Failed (e : io_exn).
Arguments Failed {A} e.

(** The two filesystem calls of the guard.
    - [fs_resolve p] is [p.resolve()] (non-strict): the canonical absolute
      path, symbolic links followed.  Up to Python 3.12 a symbolic-link loop
      raises [RuntimeError]; an embedded null raises [ValueError].
    - [fs_is_symlink p] is [p.is_symlink()]: [False] for a missing path,
      while other errors of [lstat], such as a permission error, are
      propagated as [OSError]. *)
Record FileSystem := mkFS {
  fs_resolve : Path -> io_result Path;
  fs_is_symlink : Path -> io_result bool
}.

Section Guard.

Variable IGNORE_PATTERNS : list pystr.
Variable fnmatch : pystr -> pystr -> bool.
(** [get_settings().data_dir] *)
Variable data_dir : Path.
Variable fs : FileSystem.

Definition staging_root : Path := joinpath data_dir (lit "staging").

(** The [while current != staging_root] loop.  Each turn either leaves the
    loop or replaces [current] by its parent, so [fuel] at least the number
    of names of [current] is never used up. *)
Fixpoint symlink_walk (fuel : nat) (current : Path) : outcome unit :=
  if path_eqb current staging_root then Return tt
  else
    match fs_is_symlink fs current with
    | Failed e => Raise (Uncaught e)
    | Done true => Raise (SecurityError (SymlinkDetected current))
    | Done false =>
        let current := parent current in
        if path_eqb current (parent current) then Return tt
        else
          match fuel with
          | O => Return tt
          | S fuel' => symlink_walk fuel' current
          end
    end.

(** [try: resolved = target.resolve()
     except (OSError, ValueError) as e: raise SecurityError(...)] *)
Definition resolve_target (target : Path) : outcome Path :=
  match fs_resolve fs target with
  | Done resolved => Return resolved
  | Failed (OSError n) => Raise (SecurityError (InvalidPath (OSError n)))
  | Failed ValueError => Raise (SecurityError (InvalidPath ValueError))
  | Failed RuntimeError => Raise (Uncaught RuntimeError)
  end.

(** [try: resolved.relative_to(project_staging.resolve())
     except ValueError: raise SecurityError(...)] *)
Definition check_within (resolved project_staging : Path) (filename : pystr)
  : outcome unit :=
  match fs_resolve fs project_staging with
  | Done base =>
      if is_relative_to resolved base then Return tt
      else Raise (SecurityError (PathTraversal filename))
  | Failed ValueError => Raise (SecurityError (PathTraversal filename))
  | Failed e => Raise (Uncaught e)
  end.

Definition get_safe_staging_path (project_id filename : pystr) : outcome Path :=
  project_id <- validate_project_id project_id ;;
  filename <- validate_filename IGNORE_PATTERNS fnmatch filename ;;
  let project_staging := joinpath staging_root project_id in
  let target := joinpath project_staging filename in
  resolved <- resolve_target target ;;
  _ <- check_within resolved project_staging filename ;;
  _ <- symlink_walk (length (path_names target)) target ;;
  Return resolved.

End Guard.

(** The [except] chain of the server's tool dispatcher ([call_tool]): the
    value of the ["error"] field of the response for a raised exception. *)
Definition error_field (e : exn) : pystr :=
  match e with
  | ValidationError _ => lit "validation_error"
  | SecurityError _ => lit "security_error"
  | Uncaught _ => lit "internal_error"
  end.

(* ================================================================== *)
(** ** The rules as the specification words them *)
(* ================================================================== *)

(** Identifier rule of the specification, on the trimmed input: a match of
    [[A-Za-z0-9_-]{3,64}] over the whole string, no leading [-] or [.], and
    not a reserved device name whatever the case of its letters. *)
Definition spec_project_id (t : pystr) : bool :=
  forallb project_id_char t
  && (3 <=? length t) && (length t <=? 64)
  && negb (startswith t [ch_hyphen])
  && negb (startswith t [ch_dot])
  && negb (mem (lower t) RESERVED_NAMES).

(** What is left of a trimmed repository URL, as the specification words
    it: the literal prefix dropped from the front, then the trailing slashes
    dropped; and its [/]-delimited segments. *)
Definition spec_repo_rest (t : pystr) : pystr :=
  rstrip_char ch_slash (skipn (length github_prefix) t).
Definition spec_repo_segments (t : pystr) : list pystr :=
  split ch_slash (spec_repo_rest t).

(** Steps 1 to 5 of the filename sanitizer, the ones that come before the
    ignore-pattern matcher: [true] when none of them rejects [s]. *)
Definition earlier_steps_pass (s : pystr) : bool :=
  let n := normalize_filename s in
  negb (Str.eqb s []) && negb (Str.eqb n [])
  && match find (fun pattern => contains pattern n) FORBIDDEN_PATTERNS with
     | None => true
     | Some _ => false
     end
  && VALID_FILENAME n
  && match check_parts (split ch_slash n) with
     | None => true
     | Some _ => false
     end.

(** The three granularities of the specification for one pattern, on a
    normalized filename [n]: the full relative path, one of its
    [/]-delimited segments, the final segment alone. *)
Definition spec_pattern_matches (fnmatch : pystr -> pystr -> bool)
    (n pattern : pystr) : bool :=
  fnmatch n pattern
  || existsb (fun segment => fnmatch segment pattern) (split ch_slash n)
  || fnmatch (last (split ch_slash n) []) pattern.

(** [n] matches some ignore pattern at one of the three granularities. *)
Definition spec_ignored (IGNORE_PATTERNS : list pystr)
    (fnmatch : pystr -> pystr -> bool) (n : pystr) : bool :=
  existsb (spec_pattern_matches fnmatch n) IGNORE_PATTERNS.

(** The attack corpus of the specification's testable properties. *)
Definition attack_corpus : list pystr :=
  [ lit "../../etc/passwd"; lit "a/../../b"; lit "..\..\windows\system32\x";
    lit "con"; lit "COM1.txt" ].

(* ================================================================== *)
(** ** Vocabulary of the path guard's properties *)
(* ================================================================== *)

(** [StagingRoot/project_id] and the unresolved candidate
    [StagingRoot/project_id/filename], for names the validators returned. *)
Definition project_dir (data_dir : Path) (project_id : pystr) : Path :=
  joinpath (staging_root data_dir) project_id.
Definition candidate (data_dir : Path) (project_id filename : pystr) : Path :=
  joinpath (project_dir data_dir project_id) filename.

(** [p] lies strictly below [base]. *)
Definition strict_descendant (p base : Path) : Prop :=
  path_anchor p = path_anchor base
  /\ exists rel, rel <> [] /\ path_names p = path_names base ++ rel.

(** [p], its parent, its grandparent, ...: [d] paths. *)
Fixpoint upward (d : nat) (p : Path) : list Path :=
  match d with
  | O => []
  | S d' => p :: upward d' (parent p)
  end.

(** The upward walk from [target] to [root]: [target] first, then its
    ancestors, those strictly below [root]. *)
Definition walk_paths (root target : Path) : list Path :=
  upward (length (path_names target) - length (path_names root)) target.

(** What a sequence of [is_symlink()] tests leads to: the first answer that
    is not [False] ends it. *)
Fixpoint first_symlink_answer (fs : FileSystem) (ps : list Path) : outcome unit :=
  match ps with
  | [] => Return tt
  | p :: ps' =>
      match fs_is_symlink fs p with
      | Failed e => Raise (Uncaught e)
      | Done true => Raise (SecurityError (SymlinkDetected p))
      | Done false => first_symlink_answer fs ps'
      end
  end.

Fixpoint join_names (names : list pystr) : pystr :=
  match names with
  | [] => []
  | [n] => n
  | n :: names' => n ++ ch_slash :: join_names names'
  end.

(** [str(p)] *)
Definition path_str (p : Path) : pystr :=
  match path_anchor p, path_names p with
  | Relative, [] => [ch_dot]
  | Relative, names => join_names names
  | Root, names => ch_slash :: join_names names
  | DoubleRoot, names => ch_slash :: ch_slash :: join_names names
  end.

(** No filesystem call made by the guard for the accepted names [pid] and
    [fn] raises an exception that the guard leaves uncaught. *)
Definition no_uncaught (fs : FileSystem) (data_dir : Path) (pid fn : pystr) : Prop :=
  fs_resolve fs (candidate data_dir pid fn) <> Failed RuntimeError
  /\ (forall e, fs_resolve fs (project_dir data_dir pid) = Failed e -> e = ValueError)
  /\ (forall q e, In q (walk_paths (staging_root data_dir) (candidate data_dir pid fn)) ->
                  fs_is_symlink fs q <> Failed e).

(** The law of [realpath] that ties the resolution of a path to that of its
    parent: a last name that is not [..] and not a symbolic link stays, under
    the resolved parent. *)
Definition resolves_by_name (fs : FileSystem) : Prop :=
  forall (a : anchor) (l : list pystr) (x : pystr) (r : Path),
    x <> [ch_dot; ch_dot] ->
    fs_is_symlink fs (mkPath a (l ++ [x])) = Done false ->
    fs_resolve fs (mkPath a (l ++ [x])) = Done r ->
    exists d, fs_resolve fs (mkPath a l) = Done d
              /\ r = mkPath (path_anchor d) (path_names d ++ [x]).

(* ================================================================== *)
(** ** Filesystems used in the examples *)
(* ================================================================== *)

Fixpoint lookup {A : Type} (p : Path) (table : list (Path * A)) : option A :=
  match table with
  | [] => None
  | (q, a) :: table' => if path_eqb p q then Some a else lookup p table'
  end.

(** A filesystem given by the answers that differ from those of a tree of
    plain directories and files: there [resolve()] of a canonical absolute
    path is the path itself and nothing is a symbolic link. *)
Definition fs_of_tables (resolved : list (Path * io_result Path))
    (symlink : list (Path * io_result bool)) : FileSystem :=
  mkFS (fun p => match lookup p resolved with Some r => r | None => Done p end)
       (fun p => match lookup p symlink with Some r => r | None => Done false end).

Definition plain_fs : FileSystem := fs_of_tables [] [].

(** [Path("/data")], a canonical absolute data directory. *)
Definition slash_data : Path := mkPath Root [lit "data"].

(** [Path("/data/staging/abc/...")] *)
Definition under_abc (names : list pystr) : Path :=
  mkPath Root ([lit "data"; lit "staging"; lit "abc"] ++ names).

(** [/data/staging/abc/d] is a directory without search permission: [lstat]
    of [d/f.txt] fails with [EACCES], non-strict [resolve()] passes over the
    failure and returns the path, and [is_symlink()] propagates the error. *)
Definition fs_unsearchable_dir : FileSystem :=
  fs_of_tables []
    [ (under_abc [lit "d"; lit "f.txt"], Failed (OSError EACCES)) ].

(** [/data/staging/abc/l] is a symbolic link to the directory
    [/data/staging/abc/real], and [real/x] is a directory without search
    permission: [resolve()] of [l/x/f] is [real/x/f], [l/x] is no link,
    [lstat] of [l/x/f] fails with [EACCES]. *)
Definition fs_link_above_unsearchable : FileSystem :=
  fs_of_tables
    [ (under_abc [lit "l"; lit "x"; lit "f"],
       Done (under_abc [lit "real"; lit "x"; lit "f"])) ]
    [ (under_abc [lit "l"; lit "x"; lit "f"], Failed (OSError EACCES));
      (under_abc [lit "l"], Done true) ].

(** [/data/staging/abc/f] is a symbolic link to itself: up to Python 3.12
    [resolve()] raises [RuntimeError] for the loop. *)
Definition fs_self_link : FileSystem :=
  fs_of_tables
    [ (under_abc [lit "f"], Failed RuntimeError) ]
    [ (under_abc [lit "f"], Done true) ].

(** [/data/staging/abc/l] is a symbolic link to [/etc]. *)
Definition fs_link_outside : FileSystem :=
  fs_of_tables
    [ (under_abc [lit "l"; lit "f"], Done (mkPath Root [lit "etc"; lit "f"])) ]
    [ (under_abc [lit "l"], Done true) ].

(** [/data/staging/abc/src] is a symbolic link to the directory
    [/data/staging/abc/lib], inside the project. *)
Definition fs_link_inside : FileSystem :=
  fs_of_tables
    [ (under_abc [lit "src"; lit "utils.py"],
       Done (under_abc [lit "lib"; lit "utils.py"])) ]
    [ (under_abc [lit "src"], Done true) ].

(** [/data/staging/abc/notes.txt] is a symbolic link to the file
    [/data/staging/abc/real.txt]. *)
Definition fs_final_link : FileSystem :=
  fs_of_tables
    [ (under_abc [lit "notes.txt"], Done (under_abc [lit "real.txt"])) ]
    [ (under_abc [lit "notes.txt"], Done true) ].

(* ================================================================== *)
(** ** The other validators of security.py *)
(* ================================================================== *)

(** Messages of the [ValidationError]s raised outside the three validators
    above, and of the [ToolError] of the tool handlers. *)
Inductive handler_msg :=
| VendorIdRequired
| VendorIdLength (n : nat)
| SnapshotTypeRequired
| InvalidSnapshotType (snapshot_type : pystr)
| InvalidBase64
| InvalidEncoding (encoding : pystr)
| FileTooLarge (size max_size : nat).

Inductive tool_msg :=
| FailedToWriteFile (e : io_exn).

(** What a validator or a tool handler raises: an exception of [exn] (with
    the messages of the three validators above and of the guard, or an
    interpreter exception nothing catches), a [ValidationError] with another
    message, a [ToolError], or an exception of yet another class, raised by a
    collaborator. *)
Inductive raised :=
| Inner (e : exn)
| HandlerValidationError (m : handler_msg)
| ToolError (m : tool_msg)
| OtherException.

Inductive result (A : Type) :=
| Ok (a : A)
| Fail (e : raised).
Arguments Fail {A} e.

Definition lift {A : Type} (o : outcome A) : result A :=
  match o with
  | Return a => Ok a
  | Raise e => Fail (Inner e)
  end.

Definition validate_vendor_id (vendor_id : pystr) : result pystr :=
  match vendor_id with
  | [] => Fail (HandlerValidationError VendorIdRequired)
  | _ =>
      let vendor_id := strip vendor_id in
      if (length vendor_id <? 1) || (64 <? length vendor_id) then
        Fail (HandlerValidationError (VendorIdLength (length vendor_id)))
      else Ok vendor_id
  end.

(** [valid_types], in the order of the source. *)
Definition valid_types : list pystr :=
  map lit
    [ "file_metadata"; "imports"; "exports"; "functions"; "classes";
      "connections"; "repo_metadata"; "security"; "quality";
      "doc_metadata"; "doc_content"; "doc_analysis" ]%string.

Section SnapshotType.

(** The interpreter's [str.lower()] on arbitrary strings. *)
Variable py_lower : pystr -> pystr.

Definition validate_snapshot_type (snapshot_type : pystr) : result pystr :=
  match snapshot_type with
  | [] => Fail (HandlerValidationError SnapshotTypeRequired)
  | _ =>
      let snapshot_type := py_lower (strip snapshot_type) in
      if negb (mem snapshot_type valid_types) then
        Fail (HandlerValidationError (InvalidSnapshotType snapshot_type))
      else Ok snapshot_type
  end.

End SnapshotType.

(** What [str.lower()] does to a string of ASCII characters. *)
Definition lowers_ascii (py_lower : pystr -> pystr) : Prop :=
  forall s, forallb is_ascii s = true -> py_lower s = lower s.

(** The [except] chain of [call_tool], for everything a handler raises. *)
Definition response_error (e : raised) : pystr :=
  match e with
  | Inner e => error_field e
  | HandlerValidationError _ => lit "validation_error"
  | ToolError _ => lit "tool_error"
  | OtherException => lit "internal_error"
  end.

(** The characters of the twelve snapshot types: lower-case letters and the
    underscore. *)
Definition type_char (c : char) : bool :=
  between 97 122 c || (c =? ch_underscore)%N.

(* ================================================================== *)
(** ** The upload handler of tools.py *)
(* ================================================================== *)

(** [bytes]: a list of numbers below 256. *)
Definition bytes := list N.

(** The UTF-8 encoding of one code point; a surrogate has none
    ([UnicodeEncodeError]), and a number from [0x110000] on is no code point
    of a Python string. *)
Definition utf8_char (c : char) : option bytes :=
  if (c <? 128)%N then Some [c]
  else if (c <? 2048)%N then Some [192 + c / 64; 128 + c mod 64]%N
  else if (c <? 65536)%N then
    if between 55296 57343 c then None
    else Some [224 + c / 4096; 128 + (c / 64) mod 64; 128 + c mod 64]%N
  else if (c <? 1114112)%N then
    Some [240 + c / 262144; 128 + (c / 4096) mod 64;
          128 + (c / 64) mod 64; 128 + c mod 64]%N
  else None.

(** [s.encode("utf-8")]: [None] when it raises. *)
Fixpoint utf8_encode (s : pystr) : option bytes :=
  match s with
  | [] => Some []
  | c :: s' =>
      match utf8_char c, utf8_encode s' with
      | Some b, Some bs => Some (b ++ bs)
      | _, _ => None
      end
  end.

(** [p.relative_to(d)], this time with the path it returns. *)
Definition relative_to (p d : Path) : option Path :=
  if is_relative_to p d
  then Some (mkPath Relative (skipn (length (path_names d)) (path_names p)))
  else None.

(** What a handler does to the disk, in the order it does it. *)
Inductive effect :=
| Mkdir (p : Path)
| WriteFile (p : Path) (content : bytes).

(** A handler: the effects it has had, and what it returns or raises. *)
Definition act (A : Type) : Type := (list effect * result A)%type.

Definition pure {A : Type} (a : A) : act A := ([], Ok a).
Definition throw {A : Type} (e : raised) : act A := ([], Fail e).
Definition then_ {A B : Type} (m : act A) (k : A -> act B) : act B :=
  match m with
  | (tr, Ok a) => let (tr', r) := k a in (tr ++ tr', r)
  | (tr, Fail e) => (tr, Fail e)
  end.
Definition of_result {A : Type} (r : result A) : act A := ([], r).

Notation "x <~ m ;; k" := (then_ m (fun x => k))
  (at level 61, m at next level, right associativity).

(** The dictionary returned by a successful upload. *)
Record upload_response := mkUpload {
  up_status : pystr;
  up_project_id : pystr;
  up_filename : pystr;
  up_path : pystr;
  up_size : nat
}.

Section Upload.

Variable IGNORE_PATTERNS : list pystr.
Variable fnmatch : pystr -> pystr -> bool.
Variable data_dir : Path.
Variable fs : FileSystem.
(** [base64.b64decode(content)]: [None] when it raises. *)
Variable b64decode : pystr -> option bytes.
(** [get_settings().limits.max_code_file_bytes], a count of bytes. *)
Variable max_code_file_bytes : nat.
(** [p.mkdir(parents=True, exist_ok=True)], and opening [p] for writing and
    writing [content] to it. *)
Variable mkdir : Path -> io_result unit.
Variable write_file : Path -> bytes -> io_result unit.
(** [logger.info(msg, extra=...)] of the logger that [get_logger] of
    [app.logging.logger] returns: [true] when the call returns, [false] when
    it raises. *)
Variable logger_info : pystr -> list (pystr * pystr) -> bool.

Definition log (msg : pystr) (extra : list (pystr * pystr)) : act unit :=
  if logger_info msg extra then pure tt else throw OtherException.

(** The [if encoding == ...] cascade.  [except Exception] turns every
    failure of [b64decode] into a [ValidationError]; nothing catches the
    [UnicodeEncodeError], a [ValueError], of [encode]. *)
Definition decode_content (content encoding : pystr) : result bytes :=
  if Str.eqb encoding (lit "base64") then
    match b64decode content with
    | Some file_content => Ok file_content
    | None => Fail (HandlerValidationError InvalidBase64)
    end
  else if Str.eqb encoding (lit "utf-8") then
    match utf8_encode content with
    | Some file_content => Ok file_content
    | None => Fail (Inner (Uncaught ValueError))
    end
  else Fail (HandlerValidationError (InvalidEncoding encoding)).

(** [safe_path.parent.mkdir(...)] is outside every [try]. *)
Definition make_parent (safe_path : Path) : act unit :=
  ([Mkdir (parent safe_path)],
   match mkdir (parent safe_path) with
   | Done _ => Ok tt
   | Failed e => Fail (Inner (Uncaught e))
   end).

(** [try: with open(safe_path, "wb") as f: f.write(file_content)
     except OSError as e: raise ToolError(...)] *)
Definition write_content (safe_path : Path) (file_content : bytes) : act unit :=
  ([WriteFile safe_path file_content],
   match write_file safe_path file_content with
   | Done _ => Ok tt
   | Failed (OSError n) => Fail (ToolError (FailedToWriteFile (OSError n)))
   | Failed e => Fail (Inner (Uncaught e))
   end).

Definition handle_upload_to_staging (project_id filename content encoding : pystr)
  : act upload_response :=
  project_id <~ of_result (lift (validate_project_id project_id)) ;;
  filename <~ of_result (lift (validate_filename IGNORE_PATTERNS fnmatch filename)) ;;
  _ <~ log (lit "MCP tool: upload_to_staging")
           [ (lit "project_id", project_id); (lit "filename", filename);
             (lit "encoding", encoding) ] ;;
  safe_path <~ of_result (lift (get_safe_staging_path IGNORE_PATTERNS fnmatch
                                  data_dir fs project_id filename)) ;;
  file_content <~ of_result (decode_content content encoding) ;;
  if max_code_file_bytes <? length file_content then
    throw (HandlerValidationError
             (FileTooLarge (length file_content) max_code_file_bytes))
  else
    _ <~ make_parent safe_path ;;
    _ <~ write_content safe_path file_content ;;
    match relative_to safe_path data_dir with
    | None => throw (Inner (Uncaught ValueError))
    | Some rel =>
        pure (mkUpload (lit "uploaded") project_id filename
                       (path_str rel) (length file_content))
    end.

End Upload.

(** Instances used in the examples: a decoder that rejects every content,
    and a disk on which creating a directory and writing a file succeed. *)
Definition b64_rejects_all : pystr -> option bytes := fun _ => None.
Definition mkdir_ok : Path -> io_result unit := fun _ => Done tt.
Definition write_ok : Path -> bytes -> io_result unit := fun _ _ => Done tt.

(** Two loggers: one whose calls return, and one that raises, as
    [logging.Logger.makeRecord] does, when [extra] has a key that is an
    attribute of the log record ([filename] is one; the list holds the
    attributes that are not spelled with an underscore or a capital). *)
Definition logger_ok : pystr -> list (pystr * pystr) -> bool := fun _ _ => true.
Definition record_attributes : list pystr :=
  map lit
    [ "name"; "msg"; "args"; "levelname"; "levelno"; "pathname"; "filename";
      "module"; "lineno"; "created"; "msecs"; "thread"; "process";
      "message"; "asctime" ]%string.
Definition logger_strict : pystr -> list (pystr * pystr) -> bool :=
  fun _ extra => negb (existsb (fun kv => mem (fst kv) record_attributes) extra).

(* ================================================================== *)
(** ** The staging listing of tools.py *)
(* ================================================================== *)

(** A call that may raise: it returns, or raises an exception that the
    surrounding [except (OSError, ValueError)] names, or raises another
    one. *)
Inductive tried (A : Type) :=
| Got (a : A)
| RaisedCaught
| RaisedOther.
Arguments RaisedCaught {A}.
Arguments RaisedOther {A}.

(** One entry of ["files"], and the dictionary the handler returns. *)
Record staging_file := mkStagingFile {
  sf_name : pystr;
  sf_size : nat;
  sf_modified_at : pystr
}.

Record staging_info := mkStagingInfo {
  si_status : pystr;
  si_project_id : pystr;
  si_staging_path : pystr;
  si_files : list staging_file;
  si_file_count : nat;
  si_total_size_bytes : nat
}.

Section StagingInfo.

(** [st_mtime], passed on to [datetime.fromtimestamp(...).isoformat()]. *)
Variable timestamp : Type.
(** [get_project_staging_path] of [app.ingest.local_loader], and
    [logger.info(msg, extra=...)]: [true] when the call returns. *)
Variable get_project_staging_path : pystr -> tried Path.
Variable logger_info : pystr -> list (pystr * pystr) -> bool.
(** [list(staging_path.rglob("*"))], [path.is_file()], [path.is_symlink()],
    [path.stat()] with its [st_size] and [st_mtime], and the formatting of
    the time. *)
Variable rglob : Path -> tried (list Path).
Variable is_file : Path -> tried bool.
Variable is_symlink : Path -> tried bool.
Variable stat : Path -> tried (nat * timestamp).
Variable isoformat : timestamp -> tried pystr.

(** The body of the [for] loop on one path, with the two accumulators:
    [None] when an exception leaves the handler. *)
Definition list_one (staging_path path : Path)
    (acc : list staging_file * nat) : option (list staging_file * nat) :=
  let (files, total_size) := acc in
  match is_file path with
  | Got true =>
      match is_symlink path with
      | Got false =>
          match stat path with
          | Got (size, mtime) =>
              match relative_to path staging_path with
              | Some rel_path =>
                  match isoformat mtime with
                  | Got modified_at =>
                      Some (files ++ [mkStagingFile (path_str rel_path) size
                                                    modified_at],
                            total_size + size)
                  | RaisedCaught => Some acc
                  | RaisedOther => None
                  end
              | None => Some acc
              end
          | RaisedCaught => Some acc
          | RaisedOther => None
          end
      | Got true => Some acc
      | _ => None
      end
  | Got false => Some acc
  | _ => None
  end.

Fixpoint list_all (staging_path : Path) (paths : list Path)
    (acc : list staging_file * nat) : option (list staging_file * nat) :=
  match paths with
  | [] => Some acc
  | path :: paths' =>
      match list_one staging_path path acc with
      | Some acc' => list_all staging_path paths' acc'
      | None => None
      end
  end.

(** What [handle_get_staging_info] comes to: the dictionary, an exception of
    [validate_project_id], or an exception of a call outside the [try], which
    nothing in the handler catches. *)
Inductive listing :=
| Listed (info : staging_info)
| Rejected (e : exn)
| Escaped.

Definition handle_get_staging_info (project_id : pystr) : listing :=
  match validate_project_id project_id with
  | Raise e => Rejected e
  | Return project_id =>
      if logger_info (lit "MCP tool: get_staging_info")
                     [ (lit "project_id", project_id) ]
      then
        match get_project_staging_path project_id with
        | Got staging_path =>
            match rglob staging_path with
            | Got paths =>
                match list_all staging_path paths ([], 0) with
                | Some (files, total_size) =>
                    Listed (mkStagingInfo (lit "success") project_id
                              (lit "staging/" ++ project_id) files
                              (length files) total_size)
                | None => Escaped
                end
            | _ => Escaped
            end
        | _ => Escaped
        end
      else Escaped
  end.

(** Where an entry of the listing comes from, and what the two
    accumulators of the loop have to do with each other. *)
Definition entry_of (staging_path : Path) (paths : list Path) (f : staging_file)
  : Prop :=
  exists path rel mtime,
    In path paths
    /\ is_file path = Got true
    /\ is_symlink path = Got false
    /\ stat path = Got (sf_size f, mtime)
    /\ relative_to path staging_path = Some rel
    /\ sf_name f = path_str rel
    /\ isoformat mtime = Got (sf_modified_at f).

Definition consistent (staging_path : Path) (paths : list Path)
    (acc : list staging_file * nat) : Prop :=
  snd acc = list_sum (map sf_size (fst acc))
  /\ forall f, In f (fst acc) -> entry_of staging_path paths f.

End StagingInfo.

(** A listing used in the examples: under [/data/staging/abc], a file
    [a.txt] of five bytes, a symbolic link [link] to a file, and a directory
    [dir]. *)
Definition example_staging_path (project_id : pystr) : tried Path :=
  Got (project_dir slash_data project_id).
Definition example_rglob (p : Path) : tried (list Path) :=
  Got [under_abc [lit "a.txt"]; under_abc [lit "link"]; under_abc [lit "dir"]].
Definition example_is_file (p : Path) : tried bool :=
  Got (negb (path_eqb p (under_abc [lit "dir"]))).
Definition example_is_symlink (p : Path) : tried bool :=
  Got (path_eqb p (under_abc [lit "link"])).
Definition example_stat (p : Path) : tried (nat * nat) := Got (5, 0).
Definition example_isoformat (t : nat) : tried pystr :=
  Got (lit "1970-01-01T00:00:00").

(* ================================================================== *)
(** ** Facts about the string operations *)
(* ================================================================== *)

Module StrFacts.

Lemma eqb_eq (s t : pystr) : Str.eqb s t = true <-> s = t.
Proof.
  revert t; induction s as [|a s IH]; intros [|b t]; simpl; split;
    try congruence; try reflexivity.
  - intros H. apply andb_true_iff in H as [Hab Hst].
    apply N.eqb_eq in Hab. apply IH in Hst. congruence.
  - intros H. injection H as -> ->.
    rewrite N.eqb_refl. simpl. now apply IH.
Qed.

Lemma eqb_refl (s : pystr) : Str.eqb s s = true.
Proof. now apply eqb_eq. Qed.

Lemma eqb_neq (s t : pystr) : Str.eqb s t = false <-> s <> t.
Proof.
  split.
  - intros H E. apply eqb_eq in E. congruence.
  - intros H. destruct (Str.eqb s t) eqn:E; [|reflexivity].
    apply eqb_eq in E. contradiction.
Qed.

Lemma startswith_app (s p : pystr) :
  startswith s p = true <-> exists r, s = p ++ r.
Proof.
  revert s; induction p as [|a p IH]; intros s; simpl.
  - split; [intros _; now exists s | reflexivity].
  - destruct s as [|b s].
    + split; [discriminate | intros [r Hr]; discriminate].
    + rewrite andb_true_iff, N.eqb_eq, IH. split.
      * intros [-> [r ->]]. now exists r.
      * intros [r Hr]. injection Hr as -> ->. split; [reflexivity | now exists r].
Qed.

(** [contains p s]: [p] is a substring of [s]. *)
Lemma contains_spec (p s : pystr) :
  contains p s = true <-> exists l r, s = l ++ p ++ r.
Proof.
  induction s as [|c s IH]; simpl.
  - rewrite orb_false_r, startswith_app. split.
    + intros [r Hr]. now exists [], r.
    + intros [l [r H]]. destruct l; [now exists r|discriminate].
  - rewrite orb_true_iff, startswith_app, IH. split.
    + intros [[r Hr] | [l [r Hr]]].
      * now exists [], r.
      * exists (c :: l), r. now rewrite Hr.
    + intros [[|d l] [r Hr]].
      * left. now exists r.
      * right. injection Hr as _ ->. now exists l, r.
Qed.

Lemma contains_char (c : char) (s : pystr) :
  contains [c] s = true <-> In c s.
Proof.
  rewrite contains_spec. split.
  - intros [l [r ->]]. apply in_or_app. right. now left.
  - intros H. apply in_split in H as [l [r ->]]. now exists l, r.
Qed.

Lemma dropwhile_head f (s : pystr) c r :
  dropwhile f s = c :: r -> f c = false.
Proof.
  induction s as [|a s IH]; simpl; [discriminate|].
  destruct (f a) eqn:Fa; [exact IH|].
  intros H. injection H as -> _. exact Fa.
Qed.

Lemma dropwhile_suffix f (s : pystr) :
  exists l, s = l ++ dropwhile f s /\ forallb f l = true.
Proof.
  induction s as [|a s [l [Hs Hl]]]; simpl.
  - now exists [].
  - destruct (f a) eqn:Fa.
    + exists (a :: l). simpl. rewrite Fa, Hl. split; [now f_equal | reflexivity].
    + now exists [].
Qed.

Lemma dropwhile_id f (s : pystr) :
  match s with [] => True | c :: _ => f c = false end -> dropwhile f s = s.
Proof. destruct s as [|c s]; simpl; [reflexivity | now intros ->]. Qed.

Lemma dropwhile_all f (s : pystr) :
  forallb f s = true -> dropwhile f s = [].
Proof.
  induction s as [|a s IH]; simpl; [reflexivity|].
  intros H. apply andb_true_iff in H as [-> H]. now apply IH.
Qed.

Lemma take_drop f (s : pystr) : takewhile f s ++ dropwhile f s = s.
Proof.
  induction s as [|a s IH]; simpl; [reflexivity|].
  destruct (f a); simpl; [now rewrite IH | reflexivity].
Qed.

Lemma takewhile_forallb f (s : pystr) : forallb f (takewhile f s) = true.
Proof.
  induction s as [|a s IH]; simpl; [reflexivity|].
  destruct (f a) eqn:Fa; simpl; [now rewrite Fa | reflexivity].
Qed.

Lemma takewhile_all f (s : pystr) :
  forallb f s = true -> takewhile f s = s.
Proof.
  induction s as [|a s IH]; simpl; [reflexivity|].
  intros H. apply andb_true_iff in H as [-> H]. now rewrite IH.
Qed.

(** What [strip_by] returns is a segment of its argument, and neither its
    first nor its last character is stripped any further. *)
Lemma strip_by_segment f (s : pystr) :
  exists l r, s = l ++ strip_by f s ++ r.
Proof.
  unfold strip_by, rstrip_by, lstrip_by.
  destruct (dropwhile_suffix f s) as [l [Hs _]].
  destruct (dropwhile_suffix f (rev (dropwhile f s))) as [r [Hr _]].
  exists l, (rev r).
  rewrite <- rev_app_distr, <- Hr, rev_involutive. exact Hs.
Qed.

Lemma strip_by_In f (s : pystr) c : In c (strip_by f s) -> In c s.
Proof.
  destruct (strip_by_segment f s) as [l [r H]]. intros Hc. rewrite H.
  apply in_or_app. right. apply in_or_app. now left.
Qed.

Lemma strip_by_last f (s l : pystr) c :
  strip_by f s = l ++ [c] -> f c = false.
Proof.
  unfold strip_by, rstrip_by. intros H.
  apply (f_equal (@rev char)) in H.
  rewrite rev_involutive, rev_app_distr in H. simpl in H.
  now apply dropwhile_head in H.
Qed.

Lemma strip_by_head f (s r : pystr) c :
  strip_by f s = c :: r -> f c = false.
Proof.
  unfold strip_by, rstrip_by, lstrip_by. intros H.
  destruct (dropwhile f s) as [|d t] eqn:D; [discriminate|].
  pose proof (dropwhile_head _ _ D) as Fd.
  destruct (dropwhile_suffix f (rev (d :: t))) as [l [Hl _]].
  apply (f_equal (@rev char)) in Hl.
  rewrite rev_involutive, rev_app_distr in Hl.
  rewrite H in Hl. simpl in Hl. injection Hl as -> _. exact Fd.
Qed.

Lemma strip_by_fixed f (s : pystr) :
  match s with [] => True | c :: _ => f c = false end ->
  match rev s with [] => True | c :: _ => f c = false end ->
  strip_by f s = s.
Proof.
  intros H1 H2. unfold strip_by, rstrip_by, lstrip_by.
  rewrite (dropwhile_id f s H1), (dropwhile_id f (rev s) H2).
  apply rev_involutive.
Qed.

(** Replacing one character by another is a character-wise map. *)
Lemma replace_char (a b : char) (s : pystr) :
  replace [a] [b] s = map (fun c => if (c =? a)%N then b else c) s.
Proof.
  unfold replace. induction s as [|c s IH]; simpl; [reflexivity|].
  rewrite N.eqb_sym. destruct (c =? a)%N; simpl; now rewrite IH.
Qed.

End StrFacts.

(* ================================================================== *)
(** ** Identifier validators *)
(* ================================================================== *)

Section ProjectId.

Import StrFacts.

(** After [strip()] the anchor [$] can only hold at the very end: the
    regular expression then matches the whole string. *)
Lemma VALID_PROJECT_ID_stripped (x : pystr) :
  VALID_PROJECT_ID (strip x)
  = forallb project_id_char (strip x)
    && (3 <=? length (strip x)) && (length (strip x) <=? 64).
Proof.
  unfold VALID_PROJECT_ID.
  destruct (forallb project_id_char (strip x)) eqn:All.
  - rewrite (takewhile_all _ _ All), (dropwhile_all _ _ All). simpl.
    now rewrite andb_true_r.
  - simpl.
    destruct (at_dollar (dropwhile project_id_char (strip x))) eqn:D;
      [|apply andb_false_r].
    exfalso. unfold at_dollar in D. apply orb_true_iff in D as [D|D];
      apply eqb_eq in D.
    + pose proof (take_drop project_id_char (strip x)) as E.
      rewrite D, app_nil_r in E.
      pose proof (takewhile_forallb project_id_char (strip x)) as T.
      rewrite E in T. congruence.
    + pose proof (take_drop project_id_char (strip x)) as E. rewrite D in E.
      symmetry in E. apply strip_by_last in E. discriminate.
Qed.

(** The validator returns the trimmed input when it satisfies the identifier
    rule, and raises a format error otherwise. *)
Lemma validate_project_id_cases (s : pystr) :
  match validate_project_id s with
  | Return r => spec_project_id (strip s) = true /\ r = strip s
  | Raise e => spec_project_id (strip s) = false
               /\ exists m, e = ValidationError m
  end.
Proof.
  destruct s as [|c s].
  - simpl. split; [reflexivity | eexists; reflexivity].
  - unfold validate_project_id, spec_project_id. cbv zeta.
    rewrite VALID_PROJECT_ID_stripped.
    set (t := strip (c :: s)).
    destruct (forallb project_id_char t && (3 <=? length t) && (length t <=? 64));
      cbn [negb andb];
      [|split; [reflexivity | eexists; reflexivity]].
    destruct (startswith t [ch_hyphen]); cbn [negb andb orb];
      [split; [reflexivity | eexists; reflexivity]|].
    destruct (startswith t [ch_dot]); cbn [negb andb orb];
      [split; [reflexivity | eexists; reflexivity]|].
    destruct (mem (lower t) RESERVED_NAMES); cbn [negb andb orb]; split;
      solve [reflexivity | eexists; reflexivity].
Qed.

(** C7.  [validate_project_id] accepts exactly the inputs whose trimmed form
    satisfies the identifier rule of the specification, returns the trimmed
    string, and rejects every other input with a format error; [ab], [-abc]
    and [NUL] are rejected with a format error and [abc] is accepted. *)
Theorem validate_project_id_exact :
  (forall s,
      match validate_project_id s with
      | Return r => spec_project_id (strip s) = true /\ r = strip s
      | Raise e => spec_project_id (strip s) = false
                   /\ exists m, e = ValidationError m
      end)
  /\ is_format_error (validate_project_id (lit "ab")) = true
  /\ validate_project_id (lit "abc") = Return (lit "abc")
  /\ is_format_error (validate_project_id (lit "-abc")) = true
  /\ is_format_error (validate_project_id (lit "NUL")) = true.
Proof.
  split; [exact validate_project_id_cases | repeat split; reflexivity].
Qed.

End ProjectId.

(* ================================================================== *)
(** ** Filename sanitizer *)
(* ================================================================== *)

Section SanitizerFacts.

Import StrFacts.

Variable IGNORE_PATTERNS : list pystr.
Variable fnmatch : pystr -> pystr -> bool.

Local Abbreviation sanitize := (validate_filename IGNORE_PATTERNS fnmatch).
Local Abbreviation ignored := (_matches_ignore_pattern IGNORE_PATTERNS fnmatch).

(** Everything a returned filename has gone through. *)
Lemma validate_filename_Return (s r : pystr) :
  sanitize s = Return r ->
  r = normalize_filename s
  /\ r <> []
  /\ find (fun pattern => contains pattern r) FORBIDDEN_PATTERNS = None
  /\ VALID_FILENAME r = true
  /\ check_parts (split ch_slash r) = None
  /\ ignored r = false.
Proof.
  unfold validate_filename. destruct s as [|c s]; [discriminate|].
  cbv zeta. generalize (normalize_filename (c :: s)) as n. intros n.
  destruct n as [|d t]; [discriminate|].
  destruct (find _ FORBIDDEN_PATTERNS) eqn:F; [discriminate|].
  destruct (VALID_FILENAME (d :: t)) eqn:V; [|discriminate].
  destruct (check_parts _) eqn:P; [discriminate|].
  destruct (ignored (d :: t)) eqn:I; [discriminate|].
  cbn [negb]. intros H. injection H as <-.
  repeat split; try assumption; try reflexivity; discriminate.
Qed.

(** Conversely, a string that is its own normal form and passes the checks
    is returned as it is. *)
Lemma validate_filename_fixed (r : pystr) :
  normalize_filename r = r ->
  r <> [] ->
  find (fun pattern => contains pattern r) FORBIDDEN_PATTERNS = None ->
  VALID_FILENAME r = true ->
  check_parts (split ch_slash r) = None ->
  ignored r = false ->
  sanitize r = Return r.
Proof.
  intros N E F V P I. unfold validate_filename.
  destruct r as [|c r]; [contradiction|]. cbv zeta. rewrite N.
  now rewrite F, V, P, I.
Qed.

Lemma normalize_no_backslash (s : pystr) :
  ~ In ch_backslash (normalize_filename s).
Proof.
  unfold normalize_filename, strip_char. intros H.
  apply strip_by_In in H. rewrite replace_char in H.
  apply in_map_iff in H as [c [Hc _]].
  destruct (c =? ch_backslash)%N eqn:E; [discriminate|].
  apply N.eqb_neq in E. contradiction.
Qed.

(** C2.  A filename returned by [validate_filename] has no [..] in it, no
    null character and no backslash. *)
Theorem validate_filename_clean (s r : pystr) :
  sanitize s = Return r ->
  contains [ch_dot; ch_dot] r = false
  /\ ~ In ch_nul r
  /\ ~ In ch_backslash r.
Proof.
  intros H. apply validate_filename_Return in H as (N & _ & F & _).
  pose proof (find_none _ _ F) as Fb.
  split; [|split].
  - apply (Fb [ch_dot; ch_dot]). simpl. tauto.
  - intros Hin. apply contains_char in Hin.
    rewrite (Fb [ch_nul]) in Hin; [discriminate | simpl; tauto].
  - rewrite N. apply normalize_no_backslash.
Qed.

End SanitizerFacts.

(** The sanitizer on [ \src\utils.py ]. *)
Lemma validate_filename_clean_witness :
  contains [ch_dot; ch_dot] (lit "src/utils.py") = false
  /\ ~ In ch_nul (lit "src/utils.py")
  /\ ~ In ch_backslash (lit "src/utils.py").
Proof.
  apply (@validate_filename_clean [lit "*.pem"] posix_fnmatch
           (lit " \src\utils.py ") (lit "src/utils.py")).
  reflexivity.
Defined.

Section Idempotence.

Import StrFacts.

Variable IGNORE_PATTERNS : list pystr.
Variable fnmatch : pystr -> pystr -> bool.

Local Abbreviation sanitize := (validate_filename IGNORE_PATTERNS fnmatch).

Ltac bools H :=
  repeat first
    [ rewrite orb_true_iff in H | rewrite andb_true_iff in H
    | rewrite N.leb_le in H | rewrite N.eqb_eq in H ].

Ltac not_bools :=
  repeat first
    [ rewrite orb_false_iff | rewrite andb_false_iff
    | rewrite N.leb_gt | rewrite N.eqb_neq ].

Lemma filename_char_not_space (c : char) :
  filename_char c = true -> isspace c = false.
Proof.
  unfold filename_char, filename_first_char, is_alnum, between,
    ch_dot, ch_underscore, ch_hyphen, ch_slash.
  intros H. bools H. unfold isspace, between. not_bools. lia.
Qed.

Lemma filename_first_char_not_slash (c : char) :
  filename_first_char c = true -> (ch_slash =? c)%N = false.
Proof.
  unfold filename_first_char, is_alnum, between,
    ch_dot, ch_underscore, ch_hyphen, ch_slash.
  intros H. bools H. not_bools. lia.
Qed.

(** A string accepted by [VALID_FILENAME] that does not end with a newline
    is made of the characters of the class only. *)
Lemma VALID_FILENAME_chars (r : pystr) :
  VALID_FILENAME r = true ->
  last r 0%N <> ch_newline ->
  forallb filename_char r = true.
Proof.
  destruct r as [|c r]; [discriminate|]. unfold VALID_FILENAME.
  intros H L. apply andb_true_iff in H as [H D].
  apply andb_true_iff in H as [C _].
  cbn [forallb]. unfold filename_char at 1. rewrite C. cbn [orb andb].
  pose proof (take_drop filename_char r) as E.
  pose proof (takewhile_forallb filename_char r) as T.
  unfold at_dollar in D. apply orb_true_iff in D as [D|D]; apply eqb_eq in D.
  - rewrite D, app_nil_r in E. now rewrite E in T.
  - exfalso. apply L. rewrite D in E. rewrite <- E.
    change (c :: takewhile filename_char r ++ [ch_newline])
      with ((c :: takewhile filename_char r) ++ [ch_newline]).
    apply last_last.
Qed.

Lemma forallb_hd_rev (f : char -> bool) (s : pystr) :
  forallb f s = true ->
  match rev s with [] => True | c :: _ => f c = true end.
Proof.
  intros H. destruct (rev s) as [|c t] eqn:R; [exact I|].
  rewrite forallb_forall in H. apply H. apply in_rev. rewrite R. now left.
Qed.

(** Idempotence of the sanitizer on the outputs that do not end with a
    newline, that is on the outputs within the documented character set. *)
Lemma validate_filename_idempotent_no_newline (s r : pystr) :
  sanitize s = Return r ->
  last r 0%N <> ch_newline ->
  sanitize r = Return r.
Proof.
  intros H L.
  apply validate_filename_Return in H as (N & E & F & V & P & I).
  assert (NoBs : ~ In ch_backslash r) by (rewrite N; apply normalize_no_backslash).
  apply validate_filename_fixed; try assumption.
  pose proof (VALID_FILENAME_chars r V L) as All.
  unfold normalize_filename.
  assert (S1 : strip r = r).
  { apply strip_by_fixed.
    - destruct r as [|c t]; [exact Logic.I|]. apply filename_char_not_space.
      cbn [forallb] in All. now apply andb_true_iff in All as [-> _].
    - pose proof (forallb_hd_rev _ _ All) as Hr.
      destruct (rev r); [exact Logic.I | now apply filename_char_not_space]. }
  rewrite S1.
  assert (S2 : replace [ch_backslash] [ch_slash] r = r).
  { rewrite replace_char. rewrite <- (map_id r) at 2. apply map_ext_in.
    intros c Hc. destruct (c =? ch_backslash)%N eqn:Eb; [|reflexivity].
    apply N.eqb_eq in Eb. subst c. contradiction. }
  rewrite S2. unfold strip_char. apply strip_by_fixed.
  - destruct r as [|c t]; [exact Logic.I|].
    apply filename_first_char_not_slash.
    unfold VALID_FILENAME in V. apply andb_true_iff in V as [V _].
    now apply andb_true_iff in V as [-> _].
  - destruct (rev r) as [|c t] eqn:R; [exact Logic.I|].
    apply (f_equal (@rev char)) in R. rewrite rev_involutive in R. simpl in R.
    rewrite N in R. unfold normalize_filename, strip_char in R.
    now apply strip_by_last in R.
Qed.

End Idempotence.

(** C3 at the failing input.  [a], a newline and a slash: the trailing slash
    protects the newline from [strip()], the anchor [$] of [VALID_FILENAME]
    lets the newline through, and the returned string, which ends with the
    newline, is not returned when it is validated again. *)
Theorem validate_filename_newline_not_idempotent :
  validate_filename [] posix_fnmatch (lit "a" ++ [ch_newline; ch_slash])
  = Return (lit "a" ++ [ch_newline])
  /\ forall pats fnm,
       returns_str (validate_filename pats fnm (lit "a" ++ [ch_newline]))
                   (lit "a" ++ [ch_newline]) = false.
Proof.
  split; [reflexivity|]. intros pats fnm.
  destruct (validate_filename pats fnm (lit "a" ++ [ch_newline])) as [r|e] eqn:H;
    [|reflexivity].
  apply validate_filename_Return in H as (N & _). rewrite N. reflexivity.
Qed.

(* ================================================================== *)
(** ** The arguments of [lower()] are ASCII *)
(* ================================================================== *)

Section LowerCallSites.

Import StrFacts.

Lemma class_ascii (c : char) :
  filename_char c = true \/ project_id_char c = true -> is_ascii c = true.
Proof.
  unfold filename_char, filename_first_char, project_id_char, is_alnum,
    between, ch_dot, ch_underscore, ch_hyphen, ch_slash, is_ascii.
  rewrite !orb_true_iff, !andb_true_iff, !N.leb_le, !N.eqb_eq, N.ltb_lt. lia.
Qed.

Lemma run_then_dollar_ascii (f : char -> bool) (s : pystr) :
  (forall c, f c = true -> is_ascii c = true) ->
  at_dollar (dropwhile f s) = true ->
  forallb is_ascii s = true.
Proof.
  intros Hf D. rewrite <- (take_drop f s), forallb_app.
  apply andb_true_iff. split.
  - pose proof (takewhile_forallb f s) as T. rewrite forallb_forall in *.
    auto.
  - unfold at_dollar in D. apply orb_true_iff in D as [D|D];
      apply eqb_eq in D; rewrite D; reflexivity.
Qed.

(** [project_id.lower()] is reached after [VALID_PROJECT_ID] matched. *)
Lemma VALID_PROJECT_ID_ascii (t : pystr) :
  VALID_PROJECT_ID t = true -> forallb is_ascii t = true.
Proof.
  unfold VALID_PROJECT_ID. intros H. apply andb_true_iff in H as [_ D].
  apply (run_then_dollar_ascii project_id_char); [|exact D].
  intros c Hc. apply class_ascii. now right.
Qed.

(** [part.lower()] is reached after [VALID_FILENAME] matched the string
    whose parts are taken. *)
Lemma VALID_FILENAME_ascii (r : pystr) :
  VALID_FILENAME r = true -> forallb is_ascii r = true.
Proof.
  destruct r as [|c r]; [discriminate|]. unfold VALID_FILENAME.
  intros H. apply andb_true_iff in H as [H D].
  apply andb_true_iff in H as [C _]. cbn [forallb].
  apply andb_true_iff. split.
  - apply class_ascii. left. unfold filename_char. now rewrite C.
  - apply (run_then_dollar_ascii filename_char); [|exact D].
    intros x Hx. apply class_ascii. now left.
Qed.

End LowerCallSites.

(* ================================================================== *)
(** ** Attack corpus and secret patterns *)
(* ================================================================== *)

Section Corpus.

Import StrFacts.

Variable IGNORE_PATTERNS : list pystr.
Variable fnmatch : pystr -> pystr -> bool.

Local Abbreviation sanitize := (validate_filename IGNORE_PATTERNS fnmatch).
Local Abbreviation ignored := (_matches_ignore_pattern IGNORE_PATTERNS fnmatch).

(** The letters that [lower] maps to a given one. *)
Lemma lower_char_inv (c k : char) :
  lower_char c = k -> c = k \/ (c = k - 32 /\ 97 <= k)%N.
Proof.
  unfold lower_char, between. destruct (_ && _) eqn:E; [|now left].
  intros <-. right. apply andb_true_iff in E as [A B].
  apply N.leb_le in A, B. lia.
Qed.

(** C5, as amended.  The three traversal names of the corpus are rejected
    with a security error naming [..]; [con], in any case of its letters, is
    rejected with a format error, a reserved name being compared with a whole
    path component; [COM1.txt] is no reserved name for the sanitizer, which
    returns it unless an ignore pattern matches it.  The two kinds of error
    are reported under different names. *)
Theorem attack_corpus_outcomes :
  sanitize (lit "../../etc/passwd")
    = Raise (SecurityError (ForbiddenPattern [ch_dot; ch_dot]))
  /\ sanitize (lit "a/../../b")
    = Raise (SecurityError (ForbiddenPattern [ch_dot; ch_dot]))
  /\ sanitize (lit "..\..\windows\system32\x")
    = Raise (SecurityError (ForbiddenPattern [ch_dot; ch_dot]))
  /\ sanitize (lit "con") = Raise (ValidationError (ReservedNameInPath (lit "con")))
  /\ (forall s, lower s = lit "con" ->
        sanitize s = Raise (ValidationError (ReservedNameInPath s)))
  /\ sanitize (lit "COM1.txt")
    = (if ignored (lit "COM1.txt")
       then Raise (ValidationError (MatchesIgnorePattern (lit "COM1.txt")))
       else Return (lit "COM1.txt"))
  /\ (forall m m', Str.eqb (error_field (ValidationError m))
                           (error_field (SecurityError m')) = false).
Proof.
  repeat split; try reflexivity.
  intros s H. destruct s as [|a [|b [|c [|d s]]]]; try discriminate.
  unfold lower in H. cbn [map] in H.
  change (lit "con") with [99; 111; 110]%N in H.
  injection H as Ha Hb Hc.
  apply lower_char_inv in Ha, Hb, Hc.
  destruct Ha as [->|[-> _]], Hb as [->|[-> _]], Hc as [->|[-> _]];
    reflexivity.
Qed.

(** The matcher answers [True] exactly when some pattern matches at one of
    the three granularities. *)
Lemma _matches_ignore_pattern_spec (filename : pystr) :
  ignored filename = true <->
  exists pattern, In pattern IGNORE_PATTERNS /\
    ((exists part, In part (parts (path_of_str filename))
                   /\ fnmatch part pattern = true)
     \/ fnmatch filename pattern = true
     \/ fnmatch (name (path_of_str filename)) pattern = true).
Proof.
  unfold _matches_ignore_pattern. rewrite existsb_exists.
  split; intros [pattern [Hin H]]; exists pattern; (split; [exact Hin|]).
  - apply orb_true_iff in H as [H|H]; [|tauto].
    apply orb_true_iff in H as [H|H]; [|tauto].
    left. now apply existsb_exists.
  - destruct H as [H | [H | H]].
    + apply existsb_exists in H. now rewrite H.
    + rewrite H. now rewrite orb_true_r.
    + rewrite H. apply orb_true_r.
Qed.

(** Every input is either rejected by one of the steps before the matcher,
    with an error that is not the one of the matcher, or handed, normalized,
    to the matcher, whose answer decides. *)
Lemma validate_filename_steps (s : pystr) :
  if earlier_steps_pass s then
    sanitize s
    = (if ignored (normalize_filename s)
       then Raise (ValidationError (MatchesIgnorePattern (normalize_filename s)))
       else Return (normalize_filename s))
  else
    exists e, sanitize s = Raise e
              /\ forall f, e <> ValidationError (MatchesIgnorePattern f).
Proof.
  unfold earlier_steps_pass, validate_filename. cbv zeta.
  destruct s as [|c s]; cbn [Str.eqb negb andb].
  { eexists; split; [reflexivity | discriminate]. }
  generalize (normalize_filename (c :: s)) as n. intros [|d n];
    cbn [Str.eqb negb andb].
  { eexists; split; [reflexivity | discriminate]. }
  destruct (find _ FORBIDDEN_PATTERNS); cbn [andb].
  { eexists; split; [reflexivity | discriminate]. }
  destruct (VALID_FILENAME (d :: n)); cbn [negb andb].
  2:{ eexists; split; [reflexivity | discriminate]. }
  destruct (check_parts _) as [m|] eqn:P; [|reflexivity].
  exists (ValidationError m). split; [reflexivity|].
  intros f Hf. injection Hf as ->.
  clear -P. induction (split ch_slash (d :: n)) as [|part ps IH];
    [discriminate|].
  simpl in P. destruct (check_part part) as [m|] eqn:C; [|auto].
  injection P as E. rewrite E in C. unfold check_part in C.
  destruct part; [discriminate|].
  repeat match type of C with
         | (if ?b then _ else _) = _ => destruct b
         end; discriminate.
Qed.

End Corpus.

(** [cOn], on any pattern table. *)
Lemma attack_corpus_outcomes_witness :
  lower (lit "cOn") = lit "con"
  /\ validate_filename [] posix_fnmatch (lit "cOn")
     = Raise (ValidationError (ReservedNameInPath (lit "cOn"))).
Proof.
  split; [reflexivity|].
  apply (proj1 (proj2 (proj2 (proj2 (proj2
           (@attack_corpus_outcomes [] posix_fnmatch)))))).
  reflexivity.
Defined.

(** Counterexample to C5 as stated: [con] is rejected with a format error,
    not a security error, and [COM1.txt] is not rejected at all, neither by
    the sanitizer nor by the path guard on a tree without symbolic links. *)
Lemma attack_corpus_counterexample :
  In (lit "con") attack_corpus
  /\ is_security_error (validate_filename [] posix_fnmatch (lit "con")) = false
  /\ is_security_error
       (get_safe_staging_path [] posix_fnmatch slash_data plain_fs
          (lit "abc") (lit "con")) = false
  /\ In (lit "COM1.txt") attack_corpus
  /\ validate_filename [] posix_fnmatch (lit "COM1.txt") = Return (lit "COM1.txt")
  /\ get_safe_staging_path [] posix_fnmatch slash_data plain_fs
       (lit "abc") (lit "COM1.txt")
     = Return (under_abc [lit "COM1.txt"]).
Proof.
  repeat split; try reflexivity; simpl; tauto.
Qed.

(* ================================================================== *)
(** ** Repository URL *)
(* ================================================================== *)

Section RepoUrl.

Import StrFacts.

Lemma split_nonempty (c : char) (s : pystr) : split c s <> [].
Proof.
  induction s as [|a s IH]; simpl; [discriminate|].
  destruct (a =? c)%N; [discriminate|].
  destruct (split c s); [contradiction | discriminate].
Qed.

(** One piece only means that the separator does not occur. *)
Lemma split_single (c : char) (s : pystr) :
  length (split c s) < 2 -> ~ In c s.
Proof.
  induction s as [|a s IH]; simpl; [tauto|].
  destruct (a =? c)%N eqn:E.
  - pose proof (split_nonempty c s) as NE.
    destruct (split c s); [contradiction | simpl; lia].
  - pose proof (split_nonempty c s) as NE.
    destruct (split c s) as [|w ws] eqn:S; [contradiction|].
    simpl in *. intros L [H|H].
    + subst a. rewrite N.eqb_refl in E. discriminate.
    + now apply IH.
Qed.

Lemma rstrip_by_tail f (s : pystr) :
  exists tail, s = rstrip_by f s ++ tail /\ forallb f tail = true.
Proof.
  unfold rstrip_by.
  destruct (dropwhile_suffix f (rev s)) as [l [Hs Hl]].
  exists (rev l). split.
  - rewrite <- rev_app_distr, <- Hs. symmetry. apply rev_involutive.
  - rewrite forallb_forall in *. intros x Hx. apply Hl. now apply in_rev.
Qed.

Lemma replace_absent (old new s : pystr) :
  contains old s = false -> replace old new s = s.
Proof.
  unfold replace. induction s as [|c s IH]; simpl; [reflexivity|].
  intros H. apply orb_false_iff in H as [H1 H2].
  change (match old with
          | [] => true
          | a :: p' => (a =? c)%N && startswith s p'
          end) with (startswith (c :: s) old).
  rewrite H1. f_equal. now apply IH.
Qed.

Lemma nth_slashes (k : nat) (sl : pystr) :
  forallb (N.eqb ch_slash) sl = true ->
  nth k sl 0%N = ch_slash \/ nth k sl 0%N = 0%N.
Proof.
  intros H. destruct (Nat.lt_ge_cases k (length sl)) as [L|L].
  - left. rewrite forallb_forall in H. symmetry. apply N.eqb_eq, H.
    now apply nth_In.
  - right. now apply nth_overflow.
Qed.

(** The prefix has a slash at offset 6 and a [g] at offset 8: it cannot start
    inside a string made of slash-free text followed by slashes only. *)
Lemma prefix_not_at (x sl : pystr) :
  ~ In ch_slash x ->
  forallb (N.eqb ch_slash) sl = true ->
  startswith (x ++ sl) github_prefix = false.
Proof.
  intros Hx Hsl. destruct (startswith (x ++ sl) github_prefix) eqn:S;
    [exfalso | reflexivity].
  apply startswith_app in S as [r Hr].
  assert (N6 : nth 6 (x ++ sl) 0%N = ch_slash) by (rewrite Hr; reflexivity).
  assert (N8 : nth 8 (x ++ sl) 0%N = 103%N) by (rewrite Hr; reflexivity).
  destruct (Nat.lt_ge_cases 6 (length x)) as [L|L].
  - rewrite app_nth1 in N6 by exact L. apply Hx. rewrite <- N6.
    now apply nth_In.
  - rewrite app_nth2 in N8 by lia.
    destruct (nth_slashes (8 - length x) sl Hsl) as [E|E];
      rewrite E in N8; discriminate.
Qed.

Lemma contains_cons (p s : pystr) (c : char) :
  contains p (c :: s) = startswith (c :: s) p || contains p s.
Proof. reflexivity. Qed.

Lemma prefix_absent (x sl : pystr) :
  ~ In ch_slash x ->
  forallb (N.eqb ch_slash) sl = true ->
  contains github_prefix (x ++ sl) = false.
Proof.
  intros Hx Hsl. induction x as [|c x IH].
  - clear Hx. simpl app. induction sl as [|d sl IH].
    + reflexivity.
    + rewrite contains_cons.
      pose proof (prefix_not_at [] (d :: sl) (fun H => H) Hsl) as P.
      simpl app in P. rewrite P. cbn [orb].
      simpl in Hsl. apply andb_true_iff in Hsl as [_ Hsl]. now apply IH.
  - change ((c :: x) ++ sl) with (c :: (x ++ sl)). rewrite contains_cons.
    change (c :: (x ++ sl)) with ((c :: x) ++ sl).
    rewrite (prefix_not_at (c :: x) sl Hx Hsl). cbn [orb].
    apply IH. intros H. apply Hx. now right.
Qed.

(** Dropping the prefix once, as the specification says, and replacing
    every occurrence of it, as the code does, leave the same text whenever
    the specification counts fewer than two segments. *)
Lemma replace_prefix_once (t : pystr) :
  startswith t github_prefix = true ->
  length (spec_repo_segments t) < 2 ->
  replace github_prefix [] t = skipn (length github_prefix) t.
Proof.
  intros S L. apply startswith_app in S as [r ->].
  unfold spec_repo_segments, spec_repo_rest in L.
  assert (E : skipn (length github_prefix) (github_prefix ++ r) = r)
    by reflexivity.
  rewrite E in *. clear E.
  apply split_single in L.
  destruct (rstrip_by_tail (N.eqb ch_slash) r) as [tail [Hr Ht]].
  change (replace github_prefix [] (github_prefix ++ r))
    with (replace github_prefix [] r).
  apply replace_absent. rewrite Hr. now apply prefix_absent.
Qed.

(** C8, as amended.  [validate_repo_url] rejects, with a format error, every
    input whose trimmed form does not begin with the literal prefix, and every
    input whose trimmed form has fewer than two segments once the prefix and
    the trailing slashes are dropped; [http://github.com/o/r] and
    [https://github.com/o] are rejected and [https://github.com/o/r] is
    accepted. *)
Theorem validate_repo_url_rejects (s : pystr) :
  (startswith (strip s) github_prefix = false ->
   is_format_error (validate_repo_url s) = true)
  /\ (length (spec_repo_segments (strip s)) < 2 ->
      is_format_error (validate_repo_url s) = true)
  /\ is_format_error (validate_repo_url (lit "http://github.com/o/r")) = true
  /\ is_format_error (validate_repo_url (lit "https://github.com/o")) = true
  /\ validate_repo_url (lit "https://github.com/o/r")
     = Return (lit "https://github.com/o/r").
Proof.
  split; [|split; [|repeat split; reflexivity]].
  - intros H. unfold validate_repo_url. destruct s; [reflexivity|].
    cbv zeta. now rewrite H.
  - intros L. unfold validate_repo_url. destruct s as [|c s]; [reflexivity|].
    cbv zeta. destruct (startswith (strip (c :: s)) github_prefix) eqn:S;
      [|reflexivity].
    cbn [negb]. rewrite (replace_prefix_once _ S L).
    fold (spec_repo_rest (strip (c :: s))).
    fold (spec_repo_segments (strip (c :: s))).
    apply Nat.ltb_lt in L. now rewrite L.
Qed.

End RepoUrl.

(** A wrong scheme, and an owner without a repository. *)
Lemma validate_repo_url_rejects_witness :
  is_format_error (validate_repo_url (lit "ftp://github.com/o/r")) = true
  /\ is_format_error (validate_repo_url (lit "https://github.com/owner//")) = true.
Proof.
  split.
  - apply (proj1 (validate_repo_url_rejects (lit "ftp://github.com/o/r"))).
    reflexivity.
  - apply (proj1 (proj2 (validate_repo_url_rejects (lit "https://github.com/owner//")))).
    vm_compute. lia.
Defined.

(** Counterexample to C8 as stated: an input that does not begin with the
    literal prefix, because a space comes first, is accepted. *)
Lemma validate_repo_url_counterexample :
  startswith (lit " https://github.com/o/r") github_prefix = false
  /\ validate_repo_url (lit " https://github.com/o/r")
     = Return (lit "https://github.com/o/r").
Proof. split; reflexivity. Qed.

(* ================================================================== *)
(** ** Paths *)
(* ================================================================== *)

Module PathFacts.

Import StrFacts.

Lemma names_eqb_eq (l m : list pystr) : names_eqb l m = true <-> l = m.
Proof.
  revert m; induction l as [|a l IH]; intros [|b m]; simpl;
    try (split; [discriminate | congruence]); [tauto|].
  rewrite andb_true_iff, eqb_eq, IH. split.
  - intros [-> ->]. reflexivity.
  - intros H. injection H as -> ->. tauto.
Qed.

Lemma anchor_eqb_eq (a b : anchor) : anchor_eqb a b = true <-> a = b.
Proof. destruct a, b; simpl; split; congruence. Qed.

Lemma path_eqb_eq (p q : Path) : path_eqb p q = true <-> p = q.
Proof.
  destruct p as [a l], q as [b m]. unfold path_eqb. simpl.
  rewrite andb_true_iff, anchor_eqb_eq, names_eqb_eq. split.
  - intros [-> ->]. reflexivity.
  - intros H. injection H as -> ->. tauto.
Qed.

Lemma path_eqb_refl (p : Path) : path_eqb p p = true.
Proof. now apply path_eqb_eq. Qed.

Lemma path_eqb_length (p q : Path) :
  length (path_names p) <> length (path_names q) -> path_eqb p q = false.
Proof.
  intros H. destruct (path_eqb p q) eqn:E; [|reflexivity].
  apply path_eqb_eq in E. subst q. contradiction.
Qed.

Lemma names_prefix_app (d l : list pystr) :
  names_prefix d l = true <-> exists rel, l = d ++ rel.
Proof.
  revert l; induction d as [|a d IH]; intros l; simpl.
  - split; [intros _; now exists l | reflexivity].
  - destruct l as [|b l].
    + split; [discriminate | intros [rel H]; discriminate].
    + rewrite andb_true_iff, eqb_eq, IH. split.
      * intros [-> [rel ->]]. now exists rel.
      * intros [rel H]. injection H as -> ->. split; [reflexivity | now exists rel].
Qed.

(** [relative_to] succeeds exactly on the base and on what lies below it. *)
Lemma is_relative_to_spec (p base : Path) :
  is_relative_to p base = true <-> p = base \/ strict_descendant p base.
Proof.
  unfold is_relative_to, strict_descendant.
  rewrite andb_true_iff, anchor_eqb_eq, names_prefix_app.
  destruct p as [a l], base as [b m]. simpl. split.
  - intros [-> [rel ->]]. destruct rel as [|x rel].
    + left. now rewrite app_nil_r.
    + right. split; [reflexivity|]. exists (x :: rel). split; [discriminate | reflexivity].
  - intros [H | [-> [rel [_ ->]]]].
    + injection H as -> ->. split; [reflexivity|]. exists []. now rewrite app_nil_r.
    + split; [reflexivity | now exists rel].
Qed.

Lemma join_names_app (b rel : list pystr) :
  b <> [] -> rel <> [] ->
  join_names (b ++ rel) = join_names b ++ ch_slash :: join_names rel.
Proof.
  intros Hb Hrel. induction b as [|x b IH]; [contradiction|].
  destruct b as [|y b].
  - simpl. destruct rel; [contradiction | reflexivity].
  - change (join_names ((x :: y :: b) ++ rel))
      with (x ++ ch_slash :: join_names ((y :: b) ++ rel)).
    rewrite IH by discriminate.
    change (join_names (x :: y :: b)) with (x ++ ch_slash :: join_names (y :: b)).
    now rewrite <- app_assoc.
Qed.

(** Below a base that is not a bare anchor, the text of a path starts with
    the text of the base followed by a slash. *)
Lemma strict_descendant_str (p base : Path) :
  strict_descendant p base ->
  path_names base <> [] ->
  startswith (path_str p) (path_str base ++ [ch_slash]) = true.
Proof.
  intros [Ha [rel [Hrel Hn]]] Hb. apply startswith_app.
  exists (join_names rel). unfold path_str. rewrite Ha, Hn.
  destruct (path_names base) as [|x b]; [contradiction|].
  pose proof (join_names_app Hb Hrel) as J.
  destruct (path_anchor base); cbn [app] in *; rewrite J;
    rewrite <- ?app_assoc; reflexivity.
Qed.

Lemma split_absent (c : char) (s : pystr) : ~ In c s -> split c s = [s].
Proof.
  induction s as [|a s IH]; simpl; [reflexivity|].
  intros H. destruct (a =? c)%N eqn:E.
  - apply N.eqb_eq in E. subst a. tauto.
  - rewrite IH by tauto. reflexivity.
Qed.

Lemma parse_anchor_relative (c : char) (s : pystr) :
  (ch_slash =? c)%N = false -> parse_anchor (c :: s) = Relative.
Proof.
  intros H. unfold parse_anchor. cbn [startswith]. now rewrite H.
Qed.

Lemma filter_all {A} (f : A -> bool) (l : list A) :
  (forall x, In x l -> f x = true) -> filter f l = l.
Proof.
  induction l as [|a l IH]; simpl; [reflexivity|].
  intros H. rewrite (H a) by now left. f_equal. apply IH. auto.
Qed.

End PathFacts.

(* ================================================================== *)
(** ** Path resolver / escape guard *)
(* ================================================================== *)

Section GuardFacts.

Import StrFacts PathFacts.

Variable IGNORE_PATTERNS : list pystr.
Variable fnmatch : pystr -> pystr -> bool.
Variable data_dir : Path.
Variable fs : FileSystem.

Local Abbreviation sanitize := (validate_filename IGNORE_PATTERNS fnmatch).
Local Abbreviation guard := (get_safe_staging_path IGNORE_PATTERNS fnmatch data_dir fs).
Local Abbreviation root := (staging_root data_dir).
Local Abbreviation walk := (symlink_walk data_dir fs).

Lemma staging_root_names :
  root = mkPath (path_anchor data_dir) (path_names data_dir ++ [lit "staging"]).
Proof. reflexivity. Qed.

Lemma project_id_char_not_slash (c : char) :
  project_id_char c = true -> c <> ch_slash /\ c <> ch_dot.
Proof.
  unfold project_id_char, is_alnum, between, ch_underscore, ch_hyphen,
    ch_slash, ch_dot.
  rewrite !orb_true_iff, !andb_true_iff, !N.leb_le, !N.eqb_eq. lia.
Qed.

(** An accepted project identifier is one path name. *)
Lemma project_dir_names (pid pid' : pystr) :
  validate_project_id pid = Return pid' ->
  project_dir data_dir pid'
  = mkPath (path_anchor root) (path_names root ++ [pid']).
Proof.
  intros H. pose proof (validate_project_id_cases pid) as C.
  rewrite H in C. destruct C as [S ->]. unfold spec_project_id in S.
  repeat (apply andb_true_iff in S as [S ?]).
  remember (strip pid) as t eqn:T. clear T H.
  assert (Hc : forall c, In c t -> c <> ch_slash /\ c <> ch_dot).
  { intros c Hc. apply project_id_char_not_slash.
    rewrite forallb_forall in S. now apply S. }
  destruct t as [|c t']; [discriminate|].
  unfold project_dir, joinpath.
  rewrite parse_anchor_relative.
  2:{ apply N.eqb_neq. intros E.
      destruct (Hc c (or_introl eq_refl)) as [N1 _]. now apply N1. }
  unfold parse_names. rewrite split_absent.
  2:{ intros E. destruct (Hc _ E) as [N1 _]. now apply N1. }
  cbn [filter]. change (Str.eqb (c :: t') []) with false. cbn [negb andb].
  destruct (Str.eqb (c :: t') [ch_dot]) eqn:D; [|reflexivity].
  apply eqb_eq in D. injection D as -> _.
  destruct (Hc ch_dot (or_introl eq_refl)) as [_ N2]. now contradiction N2.
Qed.

Lemma check_parts_None (ps : list pystr) :
  check_parts ps = None ->
  forall part, In part ps -> part <> [] /\ part <> [ch_dot].
Proof.
  induction ps as [|q ps IH]; simpl; [tauto|].
  destruct (check_part q) eqn:C; [discriminate|].
  intros H part [<-|Hin]; [|now apply IH].
  split; intros ->; discriminate.
Qed.

(** An accepted filename contributes the names between its slashes. *)
Lemma candidate_names (pid pid' fn fn' : pystr) :
  validate_project_id pid = Return pid' ->
  sanitize fn = Return fn' ->
  candidate data_dir pid' fn'
  = mkPath (path_anchor root)
           (path_names root ++ pid' :: split ch_slash fn').
Proof.
  intros Hp Hf. unfold candidate. rewrite (project_dir_names _ Hp).
  apply validate_filename_Return in Hf as (_ & _ & _ & V & P & _).
  destruct fn' as [|c t]; [discriminate|].
  unfold joinpath. rewrite parse_anchor_relative.
  2:{ unfold VALID_FILENAME in V. apply andb_true_iff in V as [V _].
      apply andb_true_iff in V as [V _].
      unfold filename_first_char, is_alnum, between, ch_dot, ch_underscore,
        ch_hyphen in V. unfold ch_slash.
      rewrite !orb_true_iff, !andb_true_iff, !N.leb_le, !N.eqb_eq in V.
      apply N.eqb_neq. lia. }
  cbn [path_anchor path_names]. unfold parse_names. rewrite filter_all.
  - now rewrite <- app_assoc.
  - intros part Hin. destruct (check_parts_None _ P _ Hin) as [E1 E2].
    apply eqb_neq in E1, E2. now rewrite E1, E2.
Qed.

Lemma symlink_walk_eq (fuel : nat) (current : Path) :
  walk fuel current
  = if path_eqb current root then Return tt
    else match fs_is_symlink fs current with
         | Failed e => Raise (Uncaught e)
         | Done true => Raise (SecurityError (SymlinkDetected current))
         | Done false =>
             if path_eqb (parent current) (parent (parent current))
             then Return tt
             else match fuel with
                  | O => Return tt
                  | S fuel' => walk fuel' (parent current)
                  end
         end.
Proof. destruct fuel; reflexivity. Qed.

Lemma parent_snoc (a : anchor) (l : list pystr) (x : pystr) :
  parent (mkPath a (l ++ [x])) = mkPath a l.
Proof. unfold parent. simpl. now rewrite removelast_last. Qed.

Lemma parent_differs (a : anchor) (l : list pystr) :
  l <> [] -> path_eqb (mkPath a l) (parent (mkPath a l)) = false.
Proof.
  intros H. destruct (exists_last H) as [l' [x ->]].
  rewrite parent_snoc. apply path_eqb_length. simpl.
  rewrite length_app. simpl. lia.
Qed.

(** The loop, with fuel enough for the names below the staging root, tests
    the paths of the upward walk in order and stops at the first answer that
    is not [False]: it never runs out of fuel. *)
Lemma symlink_walk_scan (l : list pystr) :
  forall fuel, length l <= fuel ->
  walk fuel (mkPath (path_anchor root) (path_names root ++ l))
  = first_symlink_answer fs
      (upward (length l) (mkPath (path_anchor root) (path_names root ++ l))).
Proof.
  induction l as [|x l IH] using rev_ind; intros fuel Hfuel.
  - rewrite symlink_walk_eq, app_nil_r.
    replace (mkPath (path_anchor root) (path_names root)) with root
      by reflexivity.
    now rewrite path_eqb_refl.
  - rewrite last_length in *.
    destruct fuel as [|fuel]; [lia|].
    rewrite symlink_walk_eq. cbn [upward first_symlink_answer].
    rewrite path_eqb_length.
    2:{ simpl. rewrite !length_app. simpl. lia. }
    destruct (fs_is_symlink fs _) as [[|]|e]; try reflexivity.
    rewrite app_assoc, parent_snoc.
    rewrite parent_differs.
    2:{ simpl. destruct (path_names data_dir); discriminate. }
    apply IH. lia.
Qed.

(** The guard on accepted names: resolution, containment, then the upward
    walk. *)
Lemma guard_accepted (pid pid' fn fn' : pystr) :
  validate_project_id pid = Return pid' ->
  sanitize fn = Return fn' ->
  guard pid fn
  = (resolved <- resolve_target fs (candidate data_dir pid' fn') ;;
     _ <- check_within fs resolved (project_dir data_dir pid') fn' ;;
     _ <- first_symlink_answer fs (walk_paths root (candidate data_dir pid' fn')) ;;
     Return resolved).
Proof.
  intros Hp Hf. unfold get_safe_staging_path. rewrite Hp, Hf. cbn [bind].
  fold (project_dir data_dir pid'). fold (candidate data_dir pid' fn').
  destruct (resolve_target fs _) as [resolved|e]; [|reflexivity]. cbn [bind].
  destruct (check_within fs _ _ _) as [u|e]; [|reflexivity]. cbn [bind].
  unfold walk_paths. rewrite (candidate_names _ _ Hp Hf).
  cbn [path_names].
  set (l := pid' :: split ch_slash fn').
  replace (length (path_names root ++ l) - length (path_names root))
    with (length l) by (rewrite length_app; lia).
  rewrite symlink_walk_scan; [reflexivity|]. rewrite length_app. lia.
Qed.

Lemma guard_Return (pid fn : pystr) (p : Path) :
  guard pid fn = Return p ->
  exists pid' fn' base,
    validate_project_id pid = Return pid'
    /\ sanitize fn = Return fn'
    /\ fs_resolve fs (candidate data_dir pid' fn') = Done p
    /\ fs_resolve fs (project_dir data_dir pid') = Done base
    /\ is_relative_to p base = true
    /\ first_symlink_answer fs (walk_paths root (candidate data_dir pid' fn'))
       = Return tt.
Proof.
  intros H.
  destruct (validate_project_id pid) as [pid'|e] eqn:Hp.
  2:{ unfold get_safe_staging_path in H. rewrite Hp in H. discriminate. }
  destruct (sanitize fn) as [fn'|e] eqn:Hf.
  2:{ unfold get_safe_staging_path in H. rewrite Hp, Hf in H. discriminate. }
  rewrite (guard_accepted _ _ Hp Hf) in H.
  exists pid', fn'. unfold resolve_target, check_within in H.
  destruct (fs_resolve fs (candidate data_dir pid' fn')) as [r|[n| |]];
    try discriminate.
  cbn [bind] in H.
  destruct (fs_resolve fs (project_dir data_dir pid')) as [base|[n| |]];
    try discriminate.
  destruct (is_relative_to r base) eqn:Rel; [|discriminate]. cbn [bind] in H.
  destruct (first_symlink_answer fs _) as [[]|e]; [|discriminate].
  cbn [bind] in H. injection H as ->. exists base. tauto.
Qed.

Lemma first_symlink_answer_Return (ps : list Path) :
  first_symlink_answer fs ps = Return tt <->
  forall c, In c ps -> fs_is_symlink fs c = Done false.
Proof.
  induction ps as [|p ps IH]; simpl; [tauto|].
  destruct (fs_is_symlink fs p) as [[|]|e] eqn:E.
  - split; [discriminate|]. intros H. specialize (H p (or_introl eq_refl)).
    congruence.
  - rewrite IH. split.
    + intros H c [<-|Hc]; auto.
    + intros H c Hc. apply H. now right.
  - split; [discriminate|]. intros H. specialize (H p (or_introl eq_refl)).
    congruence.
Qed.

(** Without a failing [is_symlink()] call on the way, a symbolic link on the
    walk ends it with the security error. *)
Lemma first_symlink_answer_security (ps : list Path) (c : Path) :
  In c ps ->
  fs_is_symlink fs c = Done true ->
  (forall q e, In q ps -> fs_is_symlink fs q <> Failed e) ->
  is_security_error (first_symlink_answer fs ps) = true.
Proof.
  induction ps as [|p ps IH]; simpl; [tauto|].
  intros Hin Hc Hq.
  destruct (fs_is_symlink fs p) as [[|]|e] eqn:E.
  - reflexivity.
  - destruct Hin as [->|Hin]; [congruence|]. apply IH; auto.
  - exfalso. apply (Hq p e); [now left | exact E].
Qed.


(** C1.  A path returned by the guard is the resolved candidate, and it is
    the resolved project directory or lies strictly below it, in which case
    its text starts with the text of that directory followed by a slash;
    when both resolutions succeed and the resolved candidate stands in any
    other relation to the resolved project directory, the guard raises the
    security error of a path traversal. *)
Theorem guard_contained :
  (forall pid fn p,
      guard pid fn = Return p ->
      exists pid' fn' base,
        validate_project_id pid = Return pid'
        /\ sanitize fn = Return fn'
        /\ fs_resolve fs (candidate data_dir pid' fn') = Done p
        /\ fs_resolve fs (project_dir data_dir pid') = Done base
        /\ (p = base \/ strict_descendant p base)
        /\ (strict_descendant p base -> path_names base <> [] ->
            startswith (path_str p) (path_str base ++ [ch_slash]) = true))
  /\ (forall pid fn pid' fn' r base,
         validate_project_id pid = Return pid' ->
         sanitize fn = Return fn' ->
         fs_resolve fs (candidate data_dir pid' fn') = Done r ->
         fs_resolve fs (project_dir data_dir pid') = Done base ->
         ~ (r = base \/ strict_descendant r base) ->
         guard pid fn = Raise (SecurityError (PathTraversal fn'))).
Proof.
  split.
  - intros pid fn p H.
    apply guard_Return in H as (pid' & fn' & base & Hp & Hf & Hr & Hb & Rel & _).
    exists pid', fn', base. repeat split; try assumption.
    + now apply is_relative_to_spec.
    + apply strict_descendant_str.
  - intros pid fn pid' fn' r base Hp Hf Hr Hb Out.
    rewrite (guard_accepted _ _ Hp Hf).
    unfold resolve_target, check_within. rewrite Hr. cbn [bind]. rewrite Hb.
    destruct (is_relative_to r base) eqn:Rel; [|reflexivity].
    apply is_relative_to_spec in Rel. contradiction.
Qed.

(** The walk starts at the candidate itself and ends at the project
    directory. *)
Lemma walk_paths_ends (pid pid' fn fn' : pystr) :
  validate_project_id pid = Return pid' ->
  sanitize fn = Return fn' ->
  In (candidate data_dir pid' fn') (walk_paths root (candidate data_dir pid' fn'))
  /\ length (walk_paths root (candidate data_dir pid' fn'))
     = S (length (split ch_slash fn')).
Proof.
  intros Hp Hf. unfold walk_paths. rewrite (candidate_names _ _ Hp Hf).
  cbn [path_names]. rewrite length_app.
  replace (length (path_names root) + length (pid' :: split ch_slash fn')
           - length (path_names root))
    with (S (length (split ch_slash fn'))) by (simpl; lia).
  split; [now left|]. cbn [upward length]. f_equal.
  generalize (parent (mkPath (path_anchor root)
                        (path_names root ++ pid' :: split ch_slash fn'))).
  induction (length (split ch_slash fn')) as [|n IH]; intros q; simpl;
    [reflexivity | now rewrite IH].
Qed.

(** A path that the guard returns had no symbolic link on its upward walk
    when the walk tested it. *)
Lemma returned_walk_clean (pid fn : pystr) (p : Path) :
  guard pid fn = Return p ->
  exists pid' fn',
    validate_project_id pid = Return pid'
    /\ sanitize fn = Return fn'
    /\ forall c, In c (walk_paths root (candidate data_dir pid' fn')) ->
                 fs_is_symlink fs c = Done false.
Proof.
  intros H.
  apply guard_Return in H as (pid' & fn' & base & Hp & Hf & _ & _ & _ & W).
  exists pid', fn'. repeat split; try assumption.
  now apply first_symlink_answer_Return.
Qed.

(** A symbolic link on the upward walk: the guard does not return. *)
Lemma walk_symlink_never_returned (pid pid' fn fn' : pystr) (c : Path) :
  validate_project_id pid = Return pid' ->
  sanitize fn = Return fn' ->
  In c (walk_paths root (candidate data_dir pid' fn')) ->
  fs_is_symlink fs c = Done true ->
  returns (guard pid fn) = false.
Proof.
  intros Hp Hf Hin Hc. destruct (guard pid fn) as [p|e] eqn:G; [|reflexivity].
  apply returned_walk_clean in G as (pid2 & fn2 & Hp2 & Hf2 & W).
  rewrite Hp in Hp2. rewrite Hf in Hf2. injection Hp2 as <-. injection Hf2 as <-.
  rewrite (W c Hin) in Hc. discriminate.
Qed.

(** A symbolic link on the upward walk, and no filesystem call raising
    what the guard leaves uncaught: the guard raises a security error. *)
Lemma walk_symlink_security_error (pid pid' fn fn' : pystr) (c : Path) :
  validate_project_id pid = Return pid' ->
  sanitize fn = Return fn' ->
  In c (walk_paths root (candidate data_dir pid' fn')) ->
  fs_is_symlink fs c = Done true ->
  no_uncaught fs data_dir pid' fn' ->
  is_security_error (guard pid fn) = true.
Proof.
  intros Hp Hf Hin Hc (Q1 & Q2 & Q3).
  rewrite (guard_accepted _ _ Hp Hf). unfold resolve_target, check_within.
  destruct (fs_resolve fs (candidate data_dir pid' fn')) as [r|[n| |]];
    try reflexivity; [|contradiction].
  cbn [bind].
  destruct (fs_resolve fs (project_dir data_dir pid')) as [base|e] eqn:B.
  - destruct (is_relative_to r base); [|reflexivity]. cbn [bind].
    pose proof (first_symlink_answer_security _ c Hin Hc Q3) as S.
    destruct (first_symlink_answer fs _) as [u|[m|m|e]]; try discriminate.
    reflexivity.
  - rewrite (Q2 e eq_refl). reflexivity.
Qed.

(** The resolution failures that the first [try] names are reported as
    security errors. *)
Lemma resolve_failure_normalized (pid pid' fn fn' : pystr) (e : io_exn) :
  validate_project_id pid = Return pid' ->
  sanitize fn = Return fn' ->
  fs_resolve fs (candidate data_dir pid' fn') = Failed e ->
  e <> RuntimeError ->
  guard pid fn = Raise (SecurityError (InvalidPath e)).
Proof.
  intros Hp Hf Hr Ne. rewrite (guard_accepted _ _ Hp Hf).
  unfold resolve_target. rewrite Hr. destruct e; try reflexivity.
  contradiction.
Qed.

(** The second [resolve()] is guarded against [ValueError] only: any other
    exception it raises leaves the guard as it is. *)
Lemma project_resolve_failure_uncaught (pid pid' fn fn' : pystr) (r : Path)
    (e : io_exn) :
  validate_project_id pid = Return pid' ->
  sanitize fn = Return fn' ->
  fs_resolve fs (candidate data_dir pid' fn') = Done r ->
  fs_resolve fs (project_dir data_dir pid') = Failed e ->
  guard pid fn
  = match e with
    | ValueError => Raise (SecurityError (PathTraversal fn'))
    | _ => Raise (Uncaught e)
    end.
Proof.
  intros Hp Hf Hr Hb. rewrite (guard_accepted _ _ Hp Hf).
  unfold resolve_target, check_within. rewrite Hr. cbn [bind]. rewrite Hb.
  destruct e; reflexivity.
Qed.

(** An exception of an [is_symlink()] call of the walk leaves the guard as
    it is. *)
Lemma walk_failure_uncaught (ps : list Path) (e : exn) :
  first_symlink_answer fs ps = Raise e ->
  (exists c, In c ps /\ e = SecurityError (SymlinkDetected c)
             /\ fs_is_symlink fs c = Done true)
  \/ (exists c x, In c ps /\ e = Uncaught x /\ fs_is_symlink fs c = Failed x).
Proof.
  induction ps as [|p ps IH]; simpl; [discriminate|].
  destruct (fs_is_symlink fs p) as [[|]|x] eqn:E; intros H.
  - injection H as <-. left. exists p. tauto.
  - destruct (IH H) as [[c [Hc He]] | [c [y [Hc He]]]].
    + left. exists c. tauto.
    + right. exists c, y. tauto.
  - injection H as <-. right. exists p, x. tauto.
Qed.

End GuardFacts.

(** [src/utils.py] on a tree without links, and [l/f] where [l] is a link
    to [/etc]. *)
Lemma guard_contained_witness :
  (exists pid' fn' base,
      validate_project_id (lit "abc") = Return pid'
      /\ validate_filename [] posix_fnmatch (lit "src/utils.py") = Return fn'
      /\ fs_resolve plain_fs (candidate slash_data pid' fn')
         = Done (under_abc [lit "src"; lit "utils.py"])
      /\ fs_resolve plain_fs (project_dir slash_data pid') = Done base
      /\ (under_abc [lit "src"; lit "utils.py"] = base
          \/ strict_descendant (under_abc [lit "src"; lit "utils.py"]) base)
      /\ (strict_descendant (under_abc [lit "src"; lit "utils.py"]) base ->
          path_names base <> [] ->
          startswith (path_str (under_abc [lit "src"; lit "utils.py"]))
                     (path_str base ++ [ch_slash]) = true))
  /\ get_safe_staging_path [] posix_fnmatch slash_data fs_link_outside
       (lit "abc") (lit "l/f")
     = Raise (SecurityError (PathTraversal (lit "l/f"))).
Proof.
  split.
  - apply (proj1 (@guard_contained [] posix_fnmatch slash_data plain_fs)
             (lit "abc") (lit "src/utils.py")).
    reflexivity.
  - apply (proj2 (@guard_contained [] posix_fnmatch slash_data fs_link_outside)
             (lit "abc") (lit "l/f") (lit "abc") (lit "l/f")
             (mkPath Root [lit "etc"; lit "f"]) (under_abc []));
      try reflexivity.
    intros [H | [_ [rel [_ H]]]]; discriminate H.
Defined.

(* ================================================================== *)
(** ** Returned paths on a filesystem that resolves name by name *)
(* ================================================================== *)


Section Lawful.

Import StrFacts PathFacts.

Variable IGNORE_PATTERNS : list pystr.
Variable fnmatch : pystr -> pystr -> bool.
Variable data_dir : Path.
Variable fs : FileSystem.
Hypothesis law : resolves_by_name fs.

Lemma split_head_prefix (c : char) (s w : pystr) (ws : list pystr) :
  split c s = w :: ws -> exists r, s = w ++ r.
Proof.
  revert w ws; induction s as [|a s IH]; simpl; intros w ws H.
  - injection H as <- _. now exists [].
  - destruct (a =? c)%N.
    + injection H as <- _. now exists (a :: s).
    + destruct (split c s) as [|w' ws'] eqn:S.
      * injection H as <- _. now exists s.
      * injection H as <- _. destruct (IH _ _ eq_refl) as [r ->].
        now exists r.
Qed.

(** Every piece of [split] is a segment of the string. *)
Lemma split_In_segment (c : char) (s part : pystr) :
  In part (split c s) -> exists l r, s = l ++ part ++ r.
Proof.
  induction s as [|a s IH]; simpl.
  - intros [<-|[]]. now exists [], [].
  - destruct (a =? c)%N.
    + intros [<-|H].
      * now exists [], (a :: s).
      * destruct (IH H) as [l [r ->]]. now exists (a :: l), r.
    + destruct (split c s) as [|w ws] eqn:S.
      * intros [<-|[]]. exists [], s. reflexivity.
      * intros [<-|H].
        -- destruct (split_head_prefix _ _ S) as [r ->]. now exists [], r.
        -- destruct (IH (or_intror H)) as [l [r ->]]. now exists (a :: l), r.
Qed.

Lemma upward_S_incl (n : nat) (p c : Path) :
  In c (upward n p) -> In c (upward (S n) p).
Proof.
  revert p; induction n as [|n IH]; intros p; [intros []|].
  intros [<-|H]; [now left|]. right. now apply IH.
Qed.

(** Walking up through names that are not links, the resolved path keeps
    those names below the resolution of where the walk stops. *)
Lemma resolve_along_walk (a : anchor) (b ns : list pystr) :
  forall p,
    (forall c, In c (upward (length ns) (mkPath a (b ++ ns))) ->
               fs_is_symlink fs c = Done false) ->
    (forall x, In x ns -> x <> [ch_dot; ch_dot]) ->
    fs_resolve fs (mkPath a (b ++ ns)) = Done p ->
    exists d, fs_resolve fs (mkPath a b) = Done d
              /\ p = mkPath (path_anchor d) (path_names d ++ ns).
Proof.
  induction ns as [|x ns IH] using rev_ind; intros p W D R.
  - rewrite app_nil_r in R. exists p. split; [exact R|].
    destruct p. simpl. now rewrite app_nil_r.
  - rewrite last_length in W. cbn [upward] in W. rewrite app_assoc in *.
    rewrite parent_snoc in W.
    pose proof law as L. unfold resolves_by_name in L.
    destruct (L a (b ++ ns) x p) as [d0 [R0 ->]].
    + apply D, in_or_app. right. now left.
    + apply W. now left.
    + exact R.
    + destruct (IH d0) as [d [Rd ->]].
      * intros c Hc. apply W. now right.
      * intros y Hy. apply D, in_or_app. now left.
      * exact R0.
      * exists d. split; [exact Rd|]. simpl. now rewrite <- app_assoc.
Qed.

(** On such a filesystem a returned path is the resolved project directory
    followed by the names of the filename: a strict descendant. *)
Lemma returned_path_below (pid fn : pystr) (p : Path) :
  get_safe_staging_path IGNORE_PATTERNS fnmatch data_dir fs pid fn = Return p ->
  exists pid' fn' base,
    validate_project_id pid = Return pid'
    /\ validate_filename IGNORE_PATTERNS fnmatch fn = Return fn'
    /\ fs_resolve fs (project_dir data_dir pid') = Done base
    /\ p = mkPath (path_anchor base) (path_names base ++ split ch_slash fn')
    /\ strict_descendant p base.
Proof.
  intros G.
  apply guard_Return in G as (pid' & fn' & base & Hp & Hf & Hr & Hb & _ & W).
  exists pid', fn', base.
  assert (E : p = mkPath (path_anchor base)
                         (path_names base ++ split ch_slash fn')).
  { rewrite first_symlink_answer_Return in W. unfold walk_paths in W.
    rewrite (candidate_names _ _ data_dir _ _ Hp Hf) in *.
    rewrite (project_dir_names data_dir _ Hp) in Hb. cbn [path_names] in W.
    replace (path_names (staging_root data_dir) ++ pid' :: split ch_slash fn')
      with ((path_names (staging_root data_dir) ++ [pid']) ++ split ch_slash fn')
      in * by now rewrite <- app_assoc.
    replace (length ((path_names (staging_root data_dir) ++ [pid'])
                       ++ split ch_slash fn')
             - length (path_names (staging_root data_dir)))
      with (S (length (split ch_slash fn'))) in W
      by (rewrite !length_app; simpl; lia).
    destruct (resolve_along_walk (path_anchor (staging_root data_dir))
                (path_names (staging_root data_dir) ++ [pid'])
                (split ch_slash fn') (p := p))
      as [d [Rd ->]].
    - intros c Hc. apply W. now apply upward_S_incl.
    - intros x Hx ->. apply split_In_segment in Hx.
      apply validate_filename_Return in Hf as (_ & _ & F & _).
      pose proof (find_none _ _ F [ch_dot; ch_dot] (or_introl eq_refl)) as C.
      apply contains_spec in Hx. simpl in C. congruence.
    - exact Hr.
    - rewrite Hb in Rd. injection Rd as <-. reflexivity. }
  repeat split; try assumption.
  - rewrite E. reflexivity.
  - exists (split ch_slash fn'). split; [apply split_nonempty | now rewrite E].
Qed.

End Lawful.

(** A tree of plain directories and files resolves name by name. *)
Lemma plain_fs_resolves_by_name : resolves_by_name plain_fs.
Proof.
  intros a l x r _ _ H. simpl in H. injection H as <-.
  exists (mkPath a l). split; reflexivity.
Qed.

(* ================================================================== *)
(** ** The walk at work *)
(* ================================================================== *)

(** A link inside the project passes the containment test and is caught by
    the walk, at the ancestor that is the link. *)
Example guard_detects_inner_link :
  get_safe_staging_path [] posix_fnmatch slash_data fs_link_inside
    (lit "abc") (lit "src/utils.py")
  = Raise (SecurityError (SymlinkDetected (under_abc [lit "src"]))).
Proof. reflexivity. Qed.

(** The walk tests the candidate itself first. *)
Example guard_detects_final_link :
  get_safe_staging_path [] posix_fnmatch slash_data fs_final_link
    (lit "abc") (lit "notes.txt")
  = Raise (SecurityError (SymlinkDetected (under_abc [lit "notes.txt"]))).
Proof. reflexivity. Qed.

(** The conditions of [walk_symlink_security_error] are met by the link
    inside the project. *)
Example guard_inner_link_security_error :
  is_security_error
    (get_safe_staging_path [] posix_fnmatch slash_data fs_link_inside
       (lit "abc") (lit "src/utils.py")) = true.
Proof.
  apply (@walk_symlink_security_error [] posix_fnmatch slash_data fs_link_inside
           (lit "abc") (lit "abc") (lit "src/utils.py") (lit "src/utils.py")
           (under_abc [lit "src"])); try reflexivity.
  - vm_compute. tauto.
  - repeat split.
    + discriminate.
    + discriminate.
    + intros q e Hq. vm_compute in Hq.
      destruct Hq as [<-|[<-|[<-|[]]]]; discriminate.
Qed.

(* ================================================================== *)
(** ** Filesystem failures that the guard lets through *)
(* ================================================================== *)

(** C6 at the failing input.  The call [is_symlink()] of the walk is outside
    every [try]: with the candidate [d/f.txt] in an unsearchable directory
    the guard raises the interpreter's [OSError] as it is, and the dispatcher
    reports it as [internal_error].  Format and security errors keep their
    two names. *)
Theorem guard_raises_raw_os_error :
  get_safe_staging_path [] posix_fnmatch slash_data fs_unsearchable_dir
    (lit "abc") (lit "d/f.txt")
  = Raise (Uncaught (OSError EACCES))
  /\ error_field (Uncaught (OSError EACCES)) = lit "internal_error"
  /\ (forall m m', Str.eqb (error_field (ValidationError m))
                           (error_field (SecurityError m')) = false).
Proof. repeat split; reflexivity. Qed.

(** C4 at the failing input.  The ancestor [l] of the candidate [l/x/f] is a
    symbolic link lying on the upward walk, and the guard fails with the raw
    [OSError] of the [is_symlink()] call made on the candidate before the
    walk reaches [l], not with a security error. *)
Theorem guard_walk_preempted_by_os_error :
  In (under_abc [lit "l"])
     (walk_paths (staging_root slash_data)
        (candidate slash_data (lit "abc") (lit "l/x/f")))
  /\ fs_is_symlink fs_link_above_unsearchable (under_abc [lit "l"]) = Done true
  /\ get_safe_staging_path [] posix_fnmatch slash_data fs_link_above_unsearchable
       (lit "abc") (lit "l/x/f")
     = Raise (Uncaught (OSError EACCES)).
Proof.
  repeat split; try reflexivity. vm_compute. tauto.
Qed.

(** C10 at the failing input.  The final component [f] of the candidate is
    a symbolic link to itself; [resolve()] raises [RuntimeError] for the
    loop, the [except] clause names [OSError] and [ValueError] only, and the
    guard fails with that [RuntimeError] before the walk tests the
    candidate. *)
Theorem guard_final_symlink_loop :
  candidate slash_data (lit "abc") (lit "f") = under_abc [lit "f"]
  /\ fs_is_symlink fs_self_link (under_abc [lit "f"]) = Done true
  /\ get_safe_staging_path [] posix_fnmatch slash_data fs_self_link
       (lit "abc") (lit "f")
     = Raise (Uncaught RuntimeError).
Proof. repeat split; reflexivity. Qed.

(* ================================================================== *)
(** ** Secret patterns *)
(* ================================================================== *)

Section SecretPatterns.

Import StrFacts PathFacts.

Variable IGNORE_PATTERNS : list pystr.
Variable fnmatch : pystr -> pystr -> bool.

Local Abbreviation sanitize := (validate_filename IGNORE_PATTERNS fnmatch).
Local Abbreviation ignored := (_matches_ignore_pattern IGNORE_PATTERNS fnmatch).
Local Abbreviation granular := (spec_ignored IGNORE_PATTERNS fnmatch).

(** What steps 1 to 5 establish about the normalized filename. *)
Lemma earlier_steps_pass_inv (s : pystr) :
  earlier_steps_pass s = true ->
  VALID_FILENAME (normalize_filename s) = true
  /\ check_parts (split ch_slash (normalize_filename s)) = None.
Proof.
  unfold earlier_steps_pass. cbv zeta. intros H.
  apply andb_true_iff in H as [H P]. apply andb_true_iff in H as [_ V].
  split; [exact V|]. now destruct (check_parts _).
Qed.

(** For a filename that reaches the matcher, the parts and the name that
    [pathlib] finds are the segments between the slashes and the last of
    them. *)
Lemma reached_parts (s : pystr) :
  earlier_steps_pass s = true ->
  parts (path_of_str (normalize_filename s))
  = split ch_slash (normalize_filename s)
  /\ name (path_of_str (normalize_filename s))
     = last (split ch_slash (normalize_filename s)) [].
Proof.
  intros H. apply earlier_steps_pass_inv in H as [V P].
  destruct (normalize_filename s) as [|c t]; [discriminate|].
  assert (N : parse_names (c :: t) = split ch_slash (c :: t)).
  { unfold parse_names. apply filter_all. intros part Hin.
    destruct (check_parts_None fnmatch _ P _ Hin) as [E1 E2].
    apply eqb_neq in E1, E2. now rewrite E1, E2. }
  unfold parts, name, path_of_str. cbn [path_anchor path_names].
  rewrite parse_anchor_relative.
  2:{ apply filename_first_char_not_slash.
      unfold VALID_FILENAME in V. apply andb_true_iff in V as [V _].
      now apply andb_true_iff in V as [V _]. }
  now rewrite N.
Qed.

(** On every filename that reaches it, the matcher of the code answers as
    the three granularities of the specification do. *)
Lemma matcher_refines_spec (s : pystr) :
  earlier_steps_pass s = true ->
  ignored (normalize_filename s) = granular (normalize_filename s).
Proof.
  intros H. destruct (reached_parts s H) as [P N].
  unfold _matches_ignore_pattern, spec_ignored, spec_pattern_matches.
  cbv zeta. rewrite P, N.
  induction IGNORE_PATTERNS as [|pattern ps IH]; [reflexivity|].
  cbn [existsb]. rewrite IH. f_equal.
  destruct (fnmatch (normalize_filename s) pattern),
           (existsb _ (split ch_slash (normalize_filename s)));
    reflexivity.
Qed.

(** A filename that one of the steps 1 to 5 rejects is rejected in the same
    way whatever the pattern table is. *)
Lemma validate_filename_early (s : pystr) :
  earlier_steps_pass s = false ->
  sanitize s = validate_filename [] fnmatch s.
Proof.
  unfold earlier_steps_pass, validate_filename. cbv zeta.
  destruct s as [|c s]; [reflexivity|]. cbn [Str.eqb negb andb].
  generalize (normalize_filename (c :: s)) as n. intros [|d n];
    [reflexivity|]. cbn [Str.eqb negb andb].
  destruct (find _ FORBIDDEN_PATTERNS); [reflexivity|].
  destruct (VALID_FILENAME (d :: n)); [|reflexivity]. cbn [negb andb].
  destruct (check_parts _); [reflexivity | discriminate].
Qed.


End SecretPatterns.



(* ================================================================== *)
(** ** Further properties of the validators *)
(* ================================================================== *)

Section MoreValidators.

Import StrFacts PathFacts.

Lemma strip_by_idem f (s : pystr) : strip_by f (strip_by f s) = strip_by f s.
Proof.
  apply strip_by_fixed.
  - destruct (strip_by f s) as [|c r] eqn:E; [exact I|].
    now apply strip_by_head in E.
  - destruct (rev (strip_by f s)) as [|c r] eqn:E; [exact I|].
    apply (f_equal (@rev char)) in E. rewrite rev_involutive in E.
    simpl in E. now apply strip_by_last in E.
Qed.

Lemma strip_idem (s : pystr) : strip (strip s) = strip s.
Proof. apply strip_by_idem. Qed.

(** X1.  [validate_vendor_id] returns the trimmed input exactly when its
    length is between 1 and 64, and raises a [ValidationError] otherwise (an
    input of white space only included); a returned identifier is returned
    again unchanged when it is validated again. *)
Theorem validate_vendor_id_exact (s : pystr) :
  match validate_vendor_id s with
  | Ok r => r = strip s /\ 1 <= length r <= 64 /\ validate_vendor_id r = Ok r
  | Fail e => (length (strip s) = 0 \/ 64 < length (strip s))
              /\ exists m, e = HandlerValidationError m
  end.
Proof.
  unfold validate_vendor_id. destruct s as [|c s].
  - split; [now left | eexists; reflexivity].
  - cbv zeta. set (t := strip (c :: s)).
    destruct (length t <? 1) eqn:L1; cbn [orb].
    { apply Nat.ltb_lt in L1. split; [left; lia | eexists; reflexivity]. }
    destruct (64 <? length t) eqn:L2.
    { apply Nat.ltb_lt in L2. split; [now right | eexists; reflexivity]. }
    apply Nat.ltb_ge in L1, L2. repeat split; try assumption.
    destruct t as [|d t'] eqn:T; [simpl in L1; lia|].
    rewrite <- T. unfold t. rewrite strip_idem. fold t.
    apply Nat.ltb_ge in L1, L2. rewrite T in *. now rewrite L1, L2.
Qed.

(** The identifier rule holds of what [validate_project_id] returns. *)
Lemma validate_project_id_Return (s r : pystr) :
  validate_project_id s = Return r ->
  r = strip s /\ spec_project_id r = true.
Proof.
  intros H. pose proof (validate_project_id_cases s) as C. rewrite H in C.
  destruct C as [S ->]. now split.
Qed.

Lemma project_id_char_plain (c : char) :
  project_id_char c = true ->
  c <> ch_slash /\ c <> ch_dot /\ isspace c = false /\ is_ascii c = true.
Proof.
  unfold project_id_char, is_alnum, between, ch_underscore, ch_hyphen,
    ch_slash, ch_dot, isspace, is_ascii, between.
  rewrite !orb_true_iff, !andb_true_iff, !N.leb_le, !N.eqb_eq.
  rewrite !orb_false_iff, !andb_false_iff, !N.leb_gt, !N.eqb_neq, N.ltb_lt.
  lia.
Qed.

(** X2.  A returned project identifier is made of the characters of the
    class only, is returned again unchanged when it is validated again, and
    joined to any path it adds exactly one name, itself. *)
Theorem validate_project_id_component (s r : pystr) :
  validate_project_id s = Return r ->
  forallb project_id_char r = true
  /\ validate_project_id r = Return r
  /\ forall p, joinpath p r = mkPath (path_anchor p) (path_names p ++ [r]).
Proof.
  intros H. apply validate_project_id_Return in H as [E S].
  assert (All : forallb project_id_char r = true).
  { unfold spec_project_id in S. repeat (apply andb_true_iff in S as [S _]).
    exact S. }
  assert (Hc : forall c, In c r -> c <> ch_slash /\ c <> ch_dot
                                   /\ isspace c = false /\ is_ascii c = true).
  { intros c Hc. apply project_id_char_plain.
    rewrite forallb_forall in All. now apply All. }
  assert (NE : r <> []).
  { intros ->. discriminate S. }
  split; [exact All|]. split.
  - assert (Fix : strip r = r) by (rewrite E; apply strip_idem).
    pose proof (validate_project_id_cases r) as C. rewrite Fix, S in C.
    destruct (validate_project_id r) as [r'|e].
    + destruct C as [_ ->]. reflexivity.
    + destruct C as [C _]. discriminate.
  - intros p. destruct r as [|c t]; [contradiction|].
    unfold joinpath. rewrite parse_anchor_relative.
    2:{ apply N.eqb_neq. intros Ec.
        destruct (Hc c (or_introl eq_refl)) as [N1 _]. now apply N1. }
    unfold parse_names. rewrite split_absent.
    2:{ intros Ec. destruct (Hc _ Ec) as [N1 _]. now apply N1. }
    cbn [filter]. change (Str.eqb (c :: t) []) with false. cbn [negb andb].
    destruct (Str.eqb (c :: t) [ch_dot]) eqn:D; [|reflexivity].
    apply eqb_eq in D. injection D as -> _.
    destruct (Hc ch_dot (or_introl eq_refl)) as (_ & N2 & _).
    now contradiction N2.
Qed.

(** X3.  An accepted repository URL is the trimmed input, begins with the
    literal prefix, and is accepted again unchanged. *)
Theorem validate_repo_url_fixed (s r : pystr) :
  validate_repo_url s = Return r ->
  r = strip s
  /\ startswith r github_prefix = true
  /\ validate_repo_url r = Return r.
Proof.
  unfold validate_repo_url at 1. destruct s as [|c s]; [discriminate|].
  cbv zeta. remember (strip (c :: s)) as t eqn:T.
  destruct (startswith t github_prefix) eqn:P; [|discriminate]. cbn [negb].
  destruct (length _ <? 2) eqn:L; [discriminate|].
  intros H. injection H as <-. repeat split; try assumption.
  assert (Fix : strip t = t) by (rewrite T; apply strip_idem).
  unfold validate_repo_url. destruct t as [|d t']; [discriminate|].
  cbv zeta. rewrite Fix. now rewrite P, L.
Qed.

End MoreValidators.

(** A vendor label, a project identifier and a URL, each with white space
    around it. *)
Lemma validate_project_id_component_witness :
  forallb project_id_char (lit "proj_1") = true
  /\ validate_project_id (lit "proj_1") = Return (lit "proj_1")
  /\ forall p, joinpath p (lit "proj_1")
               = mkPath (path_anchor p) (path_names p ++ [lit "proj_1"]).
Proof.
  apply (@validate_project_id_component (lit " proj_1 ") (lit "proj_1")).
  reflexivity.
Defined.

Lemma validate_repo_url_fixed_witness :
  lit "https://github.com/o/r" = strip (lit " https://github.com/o/r ")
  /\ startswith (lit "https://github.com/o/r") github_prefix = true
  /\ validate_repo_url (lit "https://github.com/o/r")
     = Return (lit "https://github.com/o/r").
Proof.
  apply (@validate_repo_url_fixed (lit " https://github.com/o/r ")
           (lit "https://github.com/o/r")).
  reflexivity.
Defined.

(* ================================================================== *)
(** ** Snapshot types *)
(* ================================================================== *)

Section SnapshotTypeFacts.

Import StrFacts.

Variable py_lower : pystr -> pystr.
Hypothesis lower_ascii : lowers_ascii py_lower.

Lemma mem_In (s : pystr) (l : list pystr) : mem s l = true <-> In s l.
Proof.
  unfold mem. rewrite existsb_exists. split.
  - intros [x [Hx E]]. apply eqb_eq in E. now subst x.
  - intros H. exists s. split; [exact H | apply eqb_refl].
Qed.

Lemma valid_types_chars (t : pystr) :
  In t valid_types -> t <> [] /\ forallb type_char t = true.
Proof.
  intros H. repeat (destruct H as [<-|H]; [split; [discriminate | reflexivity]|]).
  destruct H.
Qed.

Lemma type_char_plain (c : char) :
  type_char c = true ->
  isspace c = false /\ is_ascii c = true /\ lower_char c = c.
Proof.
  unfold type_char, lower_char, between, ch_underscore, isspace, is_ascii, between.
  rewrite !orb_true_iff, !andb_true_iff, !N.leb_le, !N.eqb_eq.
  rewrite !orb_false_iff, !andb_false_iff, !N.leb_gt, !N.eqb_neq, N.ltb_lt.
  intros H.
  assert (E : ((65 <=? c) && (c <=? 90))%N = false).
  { apply andb_false_iff. rewrite !N.leb_gt. lia. }
  rewrite E. repeat split; lia.
Qed.

(** A character that [lower()] sends to a character of a snapshot type is
    an ASCII letter or the underscore. *)
Lemma lower_char_type_char (c : char) :
  type_char (lower_char c) = true ->
  isspace c = false /\ is_ascii c = true.
Proof.
  unfold type_char, lower_char, between, ch_underscore, isspace, is_ascii, between.
  destruct ((65 <=? c) && (c <=? 90))%N eqn:U.
  - apply andb_true_iff in U. rewrite !N.leb_le in U. intros _.
    rewrite !orb_false_iff, !andb_false_iff, !N.leb_gt, !N.eqb_neq, N.ltb_lt.
    repeat split; lia.
  - rewrite !orb_true_iff, !andb_true_iff, !N.leb_le, !N.eqb_eq.
    rewrite !orb_false_iff, !andb_false_iff, !N.leb_gt, !N.eqb_neq, N.ltb_lt.
    intros H. repeat split; lia.
Qed.

Lemma valid_type_fixed (t : pystr) :
  In t valid_types -> strip t = t /\ py_lower t = t.
Proof.
  intros H. destruct (valid_types_chars H) as [NE All].
  assert (P : forall c, In c t -> isspace c = false /\ is_ascii c = true
                                  /\ lower_char c = c).
  { intros c Hc. apply type_char_plain. rewrite forallb_forall in All. auto. }
  split.
  - apply strip_by_fixed.
    + destruct t as [|c t']; [exact I|]. apply P. now left.
    + destruct (rev t) as [|c r] eqn:R; [exact I|]. apply P.
      apply in_rev. rewrite R. now left.
  - rewrite lower_ascii.
    + unfold lower. rewrite <- (map_id t) at 2. apply map_ext_in.
      intros c Hc. now apply P.
    + apply forallb_forall. intros c Hc. now apply P.
Qed.

(** X4.  Whatever [validate_snapshot_type] returns is one of the twelve
    snapshot types, and is returned again unchanged when validated again. *)
Theorem validate_snapshot_type_closed (s r : pystr) :
  validate_snapshot_type py_lower s = Ok r ->
  In r valid_types /\ validate_snapshot_type py_lower r = Ok r.
Proof.
  unfold validate_snapshot_type at 1. destruct s as [|c s]; [discriminate|].
  cbv zeta. destruct (mem _ valid_types) eqn:M; [|discriminate].
  cbn [negb]. intros H. injection H as <-.
  apply mem_In in M. split; [exact M|].
  destruct (valid_type_fixed M) as [S L].
  destruct (valid_types_chars M) as [NE _].
  unfold validate_snapshot_type.
  destruct (py_lower (strip (c :: s))) as [|d t] eqn:E; [contradiction|].
  cbv zeta. rewrite S, L. apply mem_In in M. now rewrite M.
Qed.

Lemma dropwhile_app_all f (ws s : pystr) :
  forallb f ws = true -> dropwhile f (ws ++ s) = dropwhile f s.
Proof.
  induction ws as [|c ws IH]; simpl; [reflexivity|].
  intros H. apply andb_true_iff in H as [-> H]. now apply IH.
Qed.

Lemma forallb_rev (f : char -> bool) (s : pystr) :
  forallb f (rev s) = forallb f s.
Proof.
  destruct (forallb f s) eqn:E.
  - rewrite forallb_forall in *. intros x Hx. apply E. now apply in_rev.
  - destruct (forallb f (rev s)) eqn:R; [|reflexivity].
    rewrite forallb_forall in R. rewrite <- E. symmetry.
    apply forallb_forall. intros x Hx. apply R. now apply in_rev in Hx.
Qed.

(** Padding of stripped characters around a string whose ends are not
    stripped is removed, and nothing else. *)
Lemma strip_by_padding f (ws1 s ws2 : pystr) :
  forallb f ws1 = true -> forallb f ws2 = true ->
  match s with [] => True | c :: _ => f c = false end ->
  match rev s with [] => True | c :: _ => f c = false end ->
  strip_by f (ws1 ++ s ++ ws2) = s.
Proof.
  intros H1 H2 Hh Hl. unfold strip_by, rstrip_by, lstrip_by.
  rewrite (dropwhile_app_all _ _ _ H1).
  destruct s as [|c s'].
  - simpl. rewrite (dropwhile_all _ _ H2). simpl.
    reflexivity.
  - cbn [app dropwhile]. rewrite Hh.
    change (c :: s' ++ ws2) with ((c :: s') ++ ws2).
    rewrite rev_app_distr, dropwhile_app_all by now rewrite forallb_rev.
    rewrite (dropwhile_id f (rev (c :: s')) Hl). apply rev_involutive.
Qed.

(** X5.  A snapshot type written in any mix of upper and lower case, with
    any white space before and after it, is accepted and returned in its
    canonical lower-case form. *)
Theorem validate_snapshot_type_normalizes (t s ws1 ws2 : pystr) :
  In t valid_types ->
  lower s = t ->
  forallb isspace ws1 = true ->
  forallb isspace ws2 = true ->
  validate_snapshot_type py_lower (ws1 ++ s ++ ws2) = Ok t.
Proof.
  intros Ht Hs H1 H2. destruct (valid_types_chars Ht) as [NE All].
  assert (P : forall c, In c s -> isspace c = false /\ is_ascii c = true).
  { intros c Hc. apply lower_char_type_char.
    rewrite forallb_forall in All. apply All. rewrite <- Hs.
    unfold lower. now apply in_map. }
  assert (NEs : s <> []) by (intros ->; now apply NE).
  assert (S : strip (ws1 ++ s ++ ws2) = s).
  { apply strip_by_padding; try assumption.
    - destruct s as [|c s']; [exact I|]. apply P. now left.
    - destruct (rev s) as [|c r] eqn:R; [exact I|]. apply P.
      apply in_rev. rewrite R. now left. }
  unfold validate_snapshot_type.
  destruct (ws1 ++ s ++ ws2) as [|d u] eqn:E.
  { destruct ws1; [destruct s; [contradiction | discriminate] | discriminate]. }
  cbv zeta. rewrite S, lower_ascii, Hs.
  - apply mem_In in Ht. now rewrite Ht.
  - apply forallb_forall. intros c Hc. now apply P.
Qed.

End SnapshotTypeFacts.

(** [lower], the ASCII map, as the interpreter's [str.lower()]. *)
Lemma lower_lowers_ascii : lowers_ascii lower.
Proof. intros s _. reflexivity. Qed.

Lemma validate_snapshot_type_closed_witness :
  In (lit "security") valid_types
  /\ validate_snapshot_type lower (lit "security") = Ok (lit "security").
Proof.
  apply (@validate_snapshot_type_closed lower lower_lowers_ascii
           (lit " Security") (lit "security")).
  reflexivity.
Defined.

Lemma validate_snapshot_type_normalizes_witness :
  validate_snapshot_type lower (lit "  " ++ lit "Doc_Content" ++ [ch_newline])
  = Ok (lit "doc_content").
Proof.
  apply (@validate_snapshot_type_normalizes lower lower_lowers_ascii
           (lit "doc_content") (lit "Doc_Content") (lit "  ") [ch_newline]);
    try reflexivity.
  vm_compute. tauto.
Defined.

(* ================================================================== *)
(** ** Accepted filenames as paths *)
(* ================================================================== *)

Section FilenameFacts.

Import StrFacts PathFacts.

Variable IGNORE_PATTERNS : list pystr.
Variable fnmatch : pystr -> pystr -> bool.

Local Abbreviation sanitize := (validate_filename IGNORE_PATTERNS fnmatch).

Lemma check_parts_each (ps : list pystr) :
  check_parts ps = None -> forall part, In part ps -> check_part part = None.
Proof.
  induction ps as [|q ps IH]; simpl; [tauto|].
  destruct (check_part q) eqn:C; [discriminate|].
  intros H part [<-|Hin]; [exact C | now apply IH].
Qed.

Lemma VALID_FILENAME_length (r : pystr) :
  VALID_FILENAME r = true -> length r <= 256.
Proof.
  destruct r as [|c r]; [discriminate|]. unfold VALID_FILENAME.
  intros H. apply andb_true_iff in H as [H D].
  apply andb_true_iff in H as [_ L]. apply Nat.leb_le in L.
  rewrite <- (take_drop filename_char r). simpl. rewrite length_app.
  unfold at_dollar in D. apply orb_true_iff in D as [D|D];
    apply eqb_eq in D; rewrite D; simpl; lia.
Qed.

(** X6.  The parts that [pathlib] sees in a returned filename are the
    pieces between its slashes, at least one; none of them is empty, [.],
    [..] or a reserved device name, and a part that begins with a dot is one
    of the two allowed dotfiles or has a second dot.  The filename has at
    most 256 characters. *)
Theorem validate_filename_parts (s r : pystr) :
  sanitize s = Return r ->
  parts (path_of_str r) = split ch_slash r
  /\ split ch_slash r <> []
  /\ length r <= 256
  /\ forall part, In part (split ch_slash r) ->
       part <> [] /\ part <> [ch_dot] /\ part <> [ch_dot; ch_dot]
       /\ mem (lower part) RESERVED_NAMES = false
       /\ (startswith part [ch_dot] = true ->
           mem part dotfile_allowlist = true
           \/ contains [ch_dot] (tl part) = true).
Proof.
  intros H. apply validate_filename_Return in H as (_ & NE & F & V & P & _).
  split; [|split; [apply split_nonempty | split; [now apply VALID_FILENAME_length|]]].
  - destruct r as [|c t]; [contradiction|].
    unfold parts, path_of_str. cbn [path_anchor path_names].
    rewrite parse_anchor_relative.
    2:{ apply filename_first_char_not_slash.
        unfold VALID_FILENAME in V. apply andb_true_iff in V as [V _].
        now apply andb_true_iff in V as [V _]. }
    cbn [app]. unfold parse_names. apply filter_all.
    intros part Hin. destruct (check_parts_None fnmatch _ P _ Hin) as [E1 E2].
    apply eqb_neq in E1, E2. now rewrite E1, E2.
  - intros part Hin. pose proof (@check_parts_each _ P _ Hin) as C.
    destruct (check_parts_None fnmatch _ P _ Hin) as [E1 E2].
    repeat split; try assumption.
    + intros ->. apply split_In_segment in Hin. apply contains_spec in Hin.
      pose proof (find_none _ _ F [ch_dot; ch_dot] (or_introl eq_refl)) as D.
      simpl in D. congruence.
    + unfold check_part in C. destruct part; [contradiction|].
      destruct (mem (lower (c :: part)) RESERVED_NAMES); [discriminate|reflexivity].
    + intros Dot. unfold check_part in C. destruct part as [|c t]; [contradiction|].
      destruct (mem (lower (c :: t)) RESERVED_NAMES); [discriminate|].
      rewrite Dot in C. cbn [andb] in C.
      destruct (mem (c :: t) dotfile_allowlist); [now left|]. cbn [negb] in C.
      destruct (contains [ch_dot] (tl (c :: t))); [now right | discriminate].
Qed.

(** X7.  With more ignore patterns the sanitizer accepts no more
    filenames: what it returns under a longer table it returns under every
    part of that table. *)
Theorem validate_filename_fewer_patterns (more : list pystr) (s r : pystr) :
  validate_filename (IGNORE_PATTERNS ++ more) fnmatch s = Return r ->
  sanitize s = Return r
  /\ validate_filename more fnmatch s = Return r.
Proof.
  intros H.
  pose proof (validate_filename_steps (IGNORE_PATTERNS ++ more) fnmatch s) as A.
  pose proof (validate_filename_steps IGNORE_PATTERNS fnmatch s) as B.
  pose proof (validate_filename_steps more fnmatch s) as C.
  destruct (earlier_steps_pass s).
  - rewrite H in A.
    unfold _matches_ignore_pattern in A, B, C. rewrite existsb_app in A.
    destruct (existsb _ IGNORE_PATTERNS); [discriminate|].
    destruct (existsb _ more); [discriminate|].
    cbn [orb] in A. injection A as ->. now split.
  - destruct A as [e [A _]]. congruence.
Qed.

(** X8.  For a filename in which [pathlib] finds a name, the third test of
    the matcher, on [path.name], never decides: a pattern that matches the
    name matches a part. *)
Theorem _matches_ignore_pattern_name_redundant (filename : pystr) :
  path_names (path_of_str filename) <> [] ->
  _matches_ignore_pattern IGNORE_PATTERNS fnmatch filename
  = existsb
      (fun pattern =>
         existsb (fun part => fnmatch part pattern) (parts (path_of_str filename))
         || fnmatch filename pattern)
      IGNORE_PATTERNS.
Proof.
  intros NE. unfold _matches_ignore_pattern. cbv zeta.
  induction IGNORE_PATTERNS as [|pattern ps IH]; [reflexivity|].
  cbn [existsb]. rewrite IH. f_equal.
  destruct (fnmatch (name (path_of_str filename)) pattern) eqn:N;
    [|now rewrite orb_false_r].
  rewrite orb_true_r.
  assert (E : existsb (fun part => fnmatch part pattern)
                (parts (path_of_str filename)) = true).
  { apply existsb_exists. exists (name (path_of_str filename)). split; [|exact N].
    unfold parts, name. apply in_or_app. right.
    destruct (exists_last NE) as [l [x ->]]. rewrite last_last.
    apply in_or_app. right. now left. }
  now rewrite E.
Qed.

End FilenameFacts.

Lemma validate_filename_parts_witness :
  parts (path_of_str (lit "src/.gitignore")) = split ch_slash (lit "src/.gitignore")
  /\ split ch_slash (lit "src/.gitignore") <> []
  /\ length (lit "src/.gitignore") <= 256
  /\ forall part, In part (split ch_slash (lit "src/.gitignore")) ->
       part <> [] /\ part <> [ch_dot] /\ part <> [ch_dot; ch_dot]
       /\ mem (lower part) RESERVED_NAMES = false
       /\ (startswith part [ch_dot] = true ->
           mem part dotfile_allowlist = true
           \/ contains [ch_dot] (tl part) = true).
Proof.
  apply (@validate_filename_parts [lit "*.pem"] posix_fnmatch
           (lit "\src\.gitignore") (lit "src/.gitignore")).
  reflexivity.
Defined.

Lemma validate_filename_fewer_patterns_witness :
  validate_filename [lit "*.pem"] posix_fnmatch (lit "main.py") = Return (lit "main.py")
  /\ validate_filename [lit "id_rsa*"] posix_fnmatch (lit "main.py")
     = Return (lit "main.py").
Proof.
  apply (@validate_filename_fewer_patterns [lit "*.pem"] posix_fnmatch
           [lit "id_rsa*"] (lit "main.py") (lit "main.py")).
  reflexivity.
Defined.

Lemma _matches_ignore_pattern_name_redundant_witness :
  _matches_ignore_pattern [lit "*.pem"] posix_fnmatch (lit "keys/a.pem")
  = existsb
      (fun pattern =>
         existsb (fun part => posix_fnmatch part pattern)
                 (parts (path_of_str (lit "keys/a.pem")))
         || posix_fnmatch (lit "keys/a.pem") pattern)
      [lit "*.pem"].
Proof.
  apply (@_matches_ignore_pattern_name_redundant [lit "*.pem"] posix_fnmatch
           (lit "keys/a.pem")).
  discriminate.
Defined.

(* ================================================================== *)
(** ** Further properties of the path guard *)
(* ================================================================== *)

Section GuardMore.

Import StrFacts PathFacts.

Variable IGNORE_PATTERNS : list pystr.
Variable fnmatch : pystr -> pystr -> bool.
Variable data_dir : Path.
Variable fs : FileSystem.

Local Abbreviation sanitize := (validate_filename IGNORE_PATTERNS fnmatch).
Local Abbreviation guard := (get_safe_staging_path IGNORE_PATTERNS fnmatch data_dir fs).

Lemma validate_project_id_idem (s r : pystr) :
  validate_project_id s = Return r -> validate_project_id r = Return r.
Proof.
  intros H. apply validate_project_id_Return in H as [E S].
  assert (Fix : strip r = r) by (rewrite E; apply strip_idem).
  pose proof (validate_project_id_cases r) as C. rewrite Fix, S in C.
  destruct (validate_project_id r) as [r'|e].
  - destruct C as [_ ->]. reflexivity.
  - destruct C as [C _]. discriminate.
Qed.

(** X9.  The guard validates its arguments itself, so a caller that has
    validated them already, as the upload handler does, gets the outcome of
    the guard on the raw arguments, provided the validated filename does not
    end with a newline. *)
Theorem guard_revalidation (pid pid' fn fn' : pystr) :
  validate_project_id pid = Return pid' ->
  sanitize fn = Return fn' ->
  last fn' 0%N <> ch_newline ->
  guard pid' fn' = guard pid fn.
Proof.
  intros Hp Hf L.
  pose proof (validate_project_id_idem _ Hp) as Hp'.
  pose proof (validate_filename_idempotent_no_newline _ _ _ Hf L) as Hf'.
  rewrite (guard_accepted _ _ data_dir fs _ _ Hp Hf).
  rewrite (guard_accepted _ _ data_dir fs _ _ Hp' Hf'). reflexivity.
Qed.

Lemma names_prefix_app_head (r a b : list pystr) :
  names_prefix (r ++ a) (r ++ b) = names_prefix a b.
Proof.
  induction r as [|x r IH]; [reflexivity|].
  simpl. now rewrite eqb_refl, IH.
Qed.

(** X10.  The candidate path of an accepted project and filename lies
    under the staging directory of a project exactly when that project is
    its own. *)
Theorem candidate_own_project (p1 p1' p2 p2' fn fn' : pystr) :
  validate_project_id p1 = Return p1' ->
  validate_project_id p2 = Return p2' ->
  sanitize fn = Return fn' ->
  is_relative_to (candidate data_dir p1' fn') (project_dir data_dir p2')
  = Str.eqb p1' p2'.
Proof.
  intros H1 H2 Hf.
  rewrite (candidate_names _ _ data_dir _ _ H1 Hf).
  rewrite (project_dir_names data_dir _ H2).
  unfold is_relative_to. cbn [path_anchor path_names].
  assert (A : anchor_eqb (path_anchor (staging_root data_dir))
                         (path_anchor (staging_root data_dir)) = true)
    by now apply anchor_eqb_eq.
  rewrite A. cbn [andb]. rewrite names_prefix_app_head.
  cbn [names_prefix]. rewrite (Bool.andb_true_r _).
  destruct (Str.eqb p1' p2') eqn:E.
  - apply eqb_eq in E. subst. apply eqb_refl.
  - apply eqb_neq in E. apply eqb_neq. congruence.
Qed.


End GuardMore.

Lemma guard_revalidation_witness :
  get_safe_staging_path [] posix_fnmatch slash_data plain_fs
    (lit "abc") (lit "src/utils.py")
  = get_safe_staging_path [] posix_fnmatch slash_data plain_fs
      (lit " abc ") (lit "\src\utils.py ").
Proof.
  apply (@guard_revalidation [] posix_fnmatch slash_data plain_fs
           (lit " abc ") (lit "abc") (lit "\src\utils.py ") (lit "src/utils.py"));
    try reflexivity.
  discriminate.
Defined.

Lemma candidate_own_project_witness :
  is_relative_to (candidate slash_data (lit "abc") (lit "main.py"))
                 (project_dir slash_data (lit "abcd"))
  = Str.eqb (lit "abc") (lit "abcd").
Proof.
  apply (@candidate_own_project [] posix_fnmatch slash_data
           (lit "abc") (lit "abc") (lit "abcd") (lit "abcd")
           (lit "main.py") (lit "main.py")); reflexivity.
Defined.


(* ================================================================== *)
(** ** The upload handler *)
(* ================================================================== *)

Section UploadFacts.

Import StrFacts PathFacts.

Variable IGNORE_PATTERNS : list pystr.
Variable fnmatch : pystr -> pystr -> bool.
Variable data_dir : Path.
Variable fs : FileSystem.
Variable b64decode : pystr -> option bytes.
Variable max_code_file_bytes : nat.
Variable mkdir : Path -> io_result unit.
Variable write_file : Path -> bytes -> io_result unit.
Variable logger_info : pystr -> list (pystr * pystr) -> bool.

Local Abbreviation sanitize := (validate_filename IGNORE_PATTERNS fnmatch).
Local Abbreviation guard := (get_safe_staging_path IGNORE_PATTERNS fnmatch data_dir fs).
Local Abbreviation upload :=
  (handle_upload_to_staging IGNORE_PATTERNS fnmatch data_dir fs b64decode
     max_code_file_bytes mkdir write_file logger_info).
Local Abbreviation decode := (decode_content b64decode).

(** The steps of the handler, one after the other. *)
Ltac steps pid fn content encoding :=
  unfold handle_upload_to_staging, then_, of_result, lift, throw, pure,
    make_parent, write_content, log, throw, pure;
  destruct (validate_project_id pid) as [pid'|?] eqn:Hp;
  [destruct (sanitize fn) as [fn'|?] eqn:Hf;
   [destruct (logger_info _ _) eqn:Hl;
    [destruct (guard pid' fn') as [sp|?] eqn:Hg;
     [destruct (decode content encoding) as [fc|?] eqn:Hd;
      [destruct (max_code_file_bytes <? length fc) eqn:Hs;
       [|destruct (mkdir (parent sp)) as [[]|?] eqn:Hm;
         [destruct (write_file sp fc) as [[]|[?| |]] eqn:Hw;
          [destruct (relative_to sp data_dir) as [rel|] eqn:Hr|..]|]]|]|]|]|]|];
  cbn [app fst snd].

(** X12.  The handler writes at most one file, after creating its parent
    directory.  The path it writes to is the one the guard returned for the
    validated names, hence the resolved project directory or a path strictly
    below it; the content is the decoded content, within the size limit. *)
Theorem upload_writes_safely (pid fn content encoding : pystr)
    (tr : list effect) (res : result upload_response) (p : Path) (c : bytes) :
  upload pid fn content encoding = (tr, res) ->
  In (WriteFile p c) tr ->
  exists pid' fn' base,
    validate_project_id pid = Return pid'
    /\ sanitize fn = Return fn'
    /\ guard pid' fn' = Return p
    /\ fs_resolve fs (project_dir data_dir pid') = Done base
    /\ (p = base \/ strict_descendant p base)
    /\ decode content encoding = Ok c
    /\ length c <= max_code_file_bytes
    /\ tr = [Mkdir (parent p); WriteFile p c].
Proof.
  steps pid fn content encoding; intros E; injection E as <- <-; intros W;
    simpl in W; try tauto;
    try (destruct W as [W|[W|[]]]; [discriminate|]; injection W as <- <-);
    try (destruct W as [W|[]]; discriminate).
  all: apply Nat.ltb_ge in Hs.
  all: pose proof (validate_project_id_idem _ Hp) as Hp'.
  all: pose proof (guard_Return _ _ _ _ _ _ Hg)
         as (q & fn2 & base & Hq & _ & _ & Hb & Rel & _).
  all: rewrite Hp' in Hq; injection Hq as <-.
  all: apply is_relative_to_spec in Rel.
  all: exists pid', fn', base; repeat split; assumption.
Qed.

(** X13.  A request that the handler rejects with a validation error or a
    security error has changed nothing on the disk. *)
Theorem upload_rejected_changes_nothing (pid fn content encoding : pystr)
    (tr : list effect) (e : raised) :
  upload pid fn content encoding = (tr, Fail e) ->
  response_error e = lit "validation_error"
  \/ response_error e = lit "security_error" ->
  tr = [].
Proof.
  steps pid fn content encoding; intros E; inversion E; subst; clear E;
    try reflexivity; intros [R|R]; vm_compute in R; discriminate.
Qed.

(** What a successful upload has gone through. *)
Lemma upload_Ok_inv (pid fn content encoding : pystr)
    (tr : list effect) (resp : upload_response) :
  upload pid fn content encoding = (tr, Ok resp) ->
  exists p c rel,
    tr = [Mkdir (parent p); WriteFile p c]
    /\ mkdir (parent p) = Done tt
    /\ write_file p c = Done tt
    /\ validate_project_id pid = Return (up_project_id resp)
    /\ sanitize fn = Return (up_filename resp)
    /\ guard (up_project_id resp) (up_filename resp) = Return p
    /\ decode content encoding = Ok c
    /\ up_size resp = length c
    /\ up_size resp <= max_code_file_bytes
    /\ relative_to p data_dir = Some rel
    /\ up_path resp = path_str rel
    /\ up_status resp = lit "uploaded".
Proof.
  steps pid fn content encoding; intros E; inversion E; subst; clear E.
  apply Nat.ltb_ge in Hs. exists sp, fc, rel. cbn. repeat split; assumption.
Qed.

(** X14.  A successful upload has created the parent directory and written
    the decoded content, once, to the path of the guard; the response carries
    the validated project identifier and filename, the number of bytes
    written, within the limit, and the written path relative to the data
    directory. *)
Theorem upload_success (pid fn content encoding : pystr)
    (tr : list effect) (resp : upload_response) :
  upload pid fn content encoding = (tr, Ok resp) ->
  exists p c rel,
    tr = [Mkdir (parent p); WriteFile p c]
    /\ mkdir (parent p) = Done tt
    /\ write_file p c = Done tt
    /\ validate_project_id pid = Return (up_project_id resp)
    /\ sanitize fn = Return (up_filename resp)
    /\ guard (up_project_id resp) (up_filename resp) = Return p
    /\ decode content encoding = Ok c
    /\ up_size resp = length c
    /\ up_size resp <= max_code_file_bytes
    /\ relative_to p data_dir = Some rel
    /\ up_path resp = path_str rel
    /\ up_status resp = lit "uploaded".
Proof. apply upload_Ok_inv. Qed.

Lemma utf8_char_length (c : char) (b : bytes) :
  utf8_char c = Some b -> 1 <= length b <= 4.
Proof.
  unfold utf8_char.
  repeat match goal with
         | |- context [if ?x then _ else _] => destruct x
         end; intros H; try discriminate; injection H as <-; simpl; lia.
Qed.

Lemma utf8_encode_length (s : pystr) (b : bytes) :
  utf8_encode s = Some b -> length s <= length b <= 4 * length s.
Proof.
  revert b; induction s as [|c s IH]; simpl; intros b H.
  - injection H as <-. simpl. lia.
  - destruct (utf8_char c) as [bc|] eqn:C; [|discriminate].
    destruct (utf8_encode s) as [bs|]; [|discriminate].
    injection H as <-. apply utf8_char_length in C.
    specialize (IH bs eq_refl). rewrite length_app. lia.
Qed.

(** X15.  The size limit counts the bytes of the UTF-8 encoding: a text
    upload is rejected as too large only when its encoding, which has at
    least as many bytes as the text has characters and at most four times as
    many, exceeds the limit. *)
Theorem upload_text_too_large (pid fn content : pystr)
    (tr : list effect) (size limit : nat) :
  upload pid fn content (lit "utf-8")
  = (tr, Fail (HandlerValidationError (FileTooLarge size limit))) ->
  limit = max_code_file_bytes
  /\ limit < size
  /\ length content <= size <= 4 * length content.
Proof.
  steps pid fn content (lit "utf-8"); intros E; inversion E; subst; clear E;
    unfold decode_content in Hd;
    change (Str.eqb (lit "utf-8") (lit "base64")) with false in Hd;
    change (Str.eqb (lit "utf-8") (lit "utf-8")) with true in Hd;
    cbv iota in Hd;
    (destruct (utf8_encode content) as [b|] eqn:U; [|discriminate]);
    try discriminate.
  injection Hd as <-. apply Nat.ltb_lt in Hs.
  apply utf8_encode_length in U. repeat split; lia.
Qed.

(** X16.  On a filesystem that resolves name by name, a successful upload
    whose reported filename does not end with a newline has written to the
    resolved staging directory of the reported project, followed by the
    parts of the reported filename. *)
Theorem upload_lands_under_project (pid fn content encoding : pystr)
    (tr : list effect) (resp : upload_response) :
  resolves_by_name fs ->
  upload pid fn content encoding = (tr, Ok resp) ->
  last (up_filename resp) 0%N <> ch_newline ->
  exists base p c,
    fs_resolve fs (project_dir data_dir (up_project_id resp)) = Done base
    /\ p = mkPath (path_anchor base)
                  (path_names base ++ split ch_slash (up_filename resp))
    /\ tr = [Mkdir (parent p); WriteFile p c].
Proof.
  intros Law U L.
  apply upload_Ok_inv in U
    as (p & c & rel & Tr & _ & _ & Hp & Hf & Hg & _).
  pose proof (validate_project_id_idem _ Hp) as Hp'.
  pose proof (validate_filename_idempotent_no_newline _ _ _ Hf L) as Hf'.
  destruct (returned_path_below _ _ _ Law _ _ Hg)
    as (q & f & base & Hq & Hf2 & Hb & E & _).
  rewrite Hp' in Hq. injection Hq as <-.
  rewrite Hf' in Hf2. injection Hf2 as <-.
  exists base, p, c. repeat split; assumption.
Qed.

End UploadFacts.

Lemma upload_writes_safely_witness :
  exists pid' fn' base,
    validate_project_id (lit "abc") = Return pid'
    /\ validate_filename [] posix_fnmatch (lit "main.py") = Return fn'
    /\ get_safe_staging_path [] posix_fnmatch slash_data plain_fs pid' fn'
       = Return (under_abc [lit "main.py"])
    /\ fs_resolve plain_fs (project_dir slash_data pid') = Done base
    /\ (under_abc [lit "main.py"] = base
        \/ strict_descendant (under_abc [lit "main.py"]) base)
    /\ decode_content b64_rejects_all (lit "hi") (lit "utf-8") = Ok [104; 105]%N
    /\ length [104; 105]%N <= 1024
    /\ [Mkdir (under_abc []); WriteFile (under_abc [lit "main.py"]) [104; 105]%N]
       = [Mkdir (parent (under_abc [lit "main.py"]));
          WriteFile (under_abc [lit "main.py"]) [104; 105]%N].
Proof.
  apply (@upload_writes_safely [] posix_fnmatch slash_data plain_fs
           b64_rejects_all 1024 mkdir_ok write_ok logger_ok
           (lit "abc") (lit "main.py") (lit "hi") (lit "utf-8")
           [Mkdir (under_abc []); WriteFile (under_abc [lit "main.py"]) [104; 105]%N]
           (Ok (mkUpload (lit "uploaded") (lit "abc") (lit "main.py")
                         (lit "staging/abc/main.py") 2))).
  - reflexivity.
  - simpl. tauto.
Defined.

Lemma upload_rejected_changes_nothing_witness : @nil effect = [].
Proof.
  apply (@upload_rejected_changes_nothing [] posix_fnmatch slash_data plain_fs
           b64_rejects_all 1024 mkdir_ok write_ok logger_ok
           (lit "abc") (lit "main.py") (lit "hi") (lit "latin-1") []
           (HandlerValidationError (InvalidEncoding (lit "latin-1")))).
  - reflexivity.
  - left. reflexivity.
Defined.

Lemma upload_success_witness :
  exists p c rel,
    [Mkdir (under_abc []); WriteFile (under_abc [lit "main.py"]) [104; 105]%N]
    = [Mkdir (parent p); WriteFile p c]
    /\ mkdir_ok (parent p) = Done tt
    /\ write_ok p c = Done tt
    /\ validate_project_id (lit " abc") = Return (lit "abc")
    /\ validate_filename [] posix_fnmatch (lit "/main.py") = Return (lit "main.py")
    /\ get_safe_staging_path [] posix_fnmatch slash_data plain_fs
         (lit "abc") (lit "main.py") = Return p
    /\ decode_content b64_rejects_all (lit "hi") (lit "utf-8") = Ok c
    /\ 2 = length c
    /\ 2 <= 1024
    /\ relative_to p slash_data = Some rel
    /\ lit "staging/abc/main.py" = path_str rel
    /\ lit "uploaded" = lit "uploaded".
Proof.
  apply (@upload_success [] posix_fnmatch slash_data plain_fs
           b64_rejects_all 1024 mkdir_ok write_ok logger_ok
           (lit " abc") (lit "/main.py") (lit "hi") (lit "utf-8")
           [Mkdir (under_abc []); WriteFile (under_abc [lit "main.py"]) [104; 105]%N]
           (mkUpload (lit "uploaded") (lit "abc") (lit "main.py")
                     (lit "staging/abc/main.py") 2)).
  reflexivity.
Defined.

Lemma upload_text_too_large_witness :
  1 = 1 /\ 1 < 3 /\ length [8364%N] <= 3 <= 4 * length [8364%N].
Proof.
  apply (@upload_text_too_large [] posix_fnmatch slash_data plain_fs
           b64_rejects_all 1 mkdir_ok write_ok logger_ok
           (lit "abc") (lit "main.py") [8364%N] [] 3 1).
  reflexivity.
Defined.

Lemma upload_lands_under_project_witness :
  exists base p c,
    fs_resolve plain_fs (project_dir slash_data (lit "abc")) = Done base
    /\ p = mkPath (path_anchor base)
                  (path_names base ++ split ch_slash (lit "src/main.py"))
    /\ [Mkdir (under_abc [lit "src"]);
        WriteFile (under_abc [lit "src"; lit "main.py"]) [104; 105]%N]
       = [Mkdir (parent p); WriteFile p c].
Proof.
  apply (@upload_lands_under_project [] posix_fnmatch slash_data plain_fs
           b64_rejects_all 1024 mkdir_ok write_ok logger_ok
           (lit "abc") (lit "src/main.py") (lit "hi") (lit "utf-8")
           [Mkdir (under_abc [lit "src"]);
            WriteFile (under_abc [lit "src"; lit "main.py"]) [104; 105]%N]
           (mkUpload (lit "uploaded") (lit "abc") (lit "src/main.py")
                     (lit "staging/abc/src/main.py") 2)).
  - exact plain_fs_resolves_by_name.
  - reflexivity.
  - discriminate.
Defined.

(* ================================================================== *)
(** ** The staging listing *)
(* ================================================================== *)

Section StagingInfoFacts.

Variable timestamp : Type.
Variable get_project_staging_path : pystr -> tried Path.
Variable logger_info : pystr -> list (pystr * pystr) -> bool.
Variable rglob : Path -> tried (list Path).
Variable is_file : Path -> tried bool.
Variable is_symlink : Path -> tried bool.
Variable stat : Path -> tried (nat * timestamp).
Variable isoformat : timestamp -> tried pystr.

Local Abbreviation one := (list_one is_file is_symlink stat isoformat).
Local Abbreviation all := (list_all is_file is_symlink stat isoformat).
Local Abbreviation entry_of := (entry_of is_file is_symlink stat isoformat).
Local Abbreviation consistent := (consistent is_file is_symlink stat isoformat).
Local Abbreviation info_of :=
  (handle_get_staging_info get_project_staging_path logger_info rglob is_file
     is_symlink stat isoformat).

Lemma list_one_consistent (sp : Path) (paths : list Path) (path : Path)
    (acc acc' : list staging_file * nat) :
  In path paths ->
  one sp path acc = Some acc' ->
  consistent sp paths acc -> consistent sp paths acc'.
Proof.
  intros Hin H [Sum Ent]. destruct acc as [files total]. unfold list_one in H.
  destruct (is_file path) as [[|]| |] eqn:F; try discriminate;
    [|injection H as <-; now split].
  destruct (is_symlink path) as [[|]| |] eqn:L; try discriminate;
    [injection H as <-; now split|].
  destruct (stat path) as [[size mtime]| |] eqn:S; try discriminate;
    [|injection H as <-; now split].
  destruct (relative_to path sp) as [rel|] eqn:R;
    [|injection H as <-; now split].
  destruct (isoformat mtime) as [m| |] eqn:M; try discriminate;
    [|injection H as <-; now split].
  injection H as <-. unfold consistent in *. cbn [fst snd] in *. split.
  - rewrite map_app, list_sum_app. simpl. lia.
  - intros f Hf. apply in_app_or in Hf as [Hf|[<-|[]]]; [now apply Ent|].
    exists path, rel, mtime. cbn. tauto.
Qed.

Lemma list_all_consistent (sp : Path) (universe paths : list Path) :
  incl paths universe ->
  forall acc acc',
    all sp paths acc = Some acc' ->
    consistent sp universe acc -> consistent sp universe acc'.
Proof.
  induction paths as [|path paths IH]; intros Inc acc acc' H C.
  - simpl in H. injection H as <-. exact C.
  - simpl in H. destruct (one sp path acc) as [acc1|] eqn:O; [|discriminate].
    apply (IH (fun x Hx => Inc x (or_intror Hx)) acc1 acc' H).
    exact (@list_one_consistent sp universe path acc acc1
             (Inc path (or_introl eq_refl)) O C).
Qed.

(** X17.  In the dictionary of [get_staging_info] the file count is the
    number of entries and the total size is the sum of their sizes; every
    entry comes from a path of the listing that is a regular file and not a
    symbolic link, with the size of its [stat] and its path relative to the
    staging directory; the project identifier is the validated one. *)
Theorem staging_info_consistent (project_id : pystr) (info : staging_info) :
  info_of project_id = Listed info ->
  exists staging_path paths,
    validate_project_id project_id = Return (si_project_id info)
    /\ get_project_staging_path (si_project_id info) = Got staging_path
    /\ rglob staging_path = Got paths
    /\ si_file_count info = length (si_files info)
    /\ si_total_size_bytes info = list_sum (map sf_size (si_files info))
    /\ si_staging_path info = lit "staging/" ++ si_project_id info
    /\ forall f, In f (si_files info) -> entry_of staging_path paths f.
Proof.
  unfold handle_get_staging_info.
  destruct (validate_project_id project_id) as [pid|e]; [|discriminate].
  destruct (logger_info _ _); [|discriminate].
  destruct (get_project_staging_path pid) as [sp| |] eqn:P; try discriminate.
  destruct (rglob sp) as [paths| |] eqn:G; try discriminate.
  destruct (all sp paths ([], 0)) as [[files total]|] eqn:A; [|discriminate].
  intros H. injection H as <-. exists sp, paths. cbn.
  destruct (@list_all_consistent sp paths paths (incl_refl paths) _ _ A)
    as [Sum Ent].
  { split; [reflexivity | intros f []]. }
  repeat split; assumption.
Qed.

End StagingInfoFacts.

Lemma staging_info_consistent_witness :
  exists staging_path paths,
    validate_project_id (lit " abc") = Return (lit "abc")
    /\ example_staging_path (lit "abc") = Got staging_path
    /\ example_rglob staging_path = Got paths
    /\ 1 = length [mkStagingFile (lit "a.txt") 5 (lit "1970-01-01T00:00:00")]
    /\ 5 = list_sum (map sf_size
                       [mkStagingFile (lit "a.txt") 5 (lit "1970-01-01T00:00:00")])
    /\ lit "staging/abc" = lit "staging/" ++ lit "abc"
    /\ forall f,
         In f [mkStagingFile (lit "a.txt") 5 (lit "1970-01-01T00:00:00")] ->
         entry_of example_is_file example_is_symlink example_stat
           example_isoformat staging_path paths f.
Proof.
  apply (@staging_info_consistent nat example_staging_path logger_ok example_rglob
           example_is_file example_is_symlink example_stat example_isoformat
           (lit " abc")
           (mkStagingInfo (lit "success") (lit "abc") (lit "staging/abc")
              [mkStagingFile (lit "a.txt") 5 (lit "1970-01-01T00:00:00")] 1 5)).
  reflexivity.
Defined.

(* ================================================================== *)
(** ** Filenames with the same normal form *)
(* ================================================================== *)

Section Normalization.

Import StrFacts.

Variable IGNORE_PATTERNS : list pystr.
Variable fnmatch : pystr -> pystr -> bool.

Local Abbreviation sanitize := (validate_filename IGNORE_PATTERNS fnmatch).

Lemma validate_filename_normal (x y : pystr) :
  x <> [] -> y <> [] ->
  normalize_filename x = normalize_filename y ->
  sanitize x = sanitize y.
Proof.
  intros Hx Hy E. unfold validate_filename.
  destruct x as [|a x]; [contradiction|]. destruct y as [|b y]; [contradiction|].
  cbv zeta. now rewrite E.
Qed.

Lemma dropwhile_map (f : char -> bool) (g : char -> char) (s : pystr) :
  (forall c, f (g c) = f c) ->
  dropwhile f (map g s) = map g (dropwhile f s).
Proof.
  intros H. induction s as [|c s IH]; simpl; [reflexivity|].
  rewrite H. destruct (f c); [exact IH | reflexivity].
Qed.

Lemma strip_by_map (f : char -> bool) (g : char -> char) (s : pystr) :
  (forall c, f (g c) = f c) ->
  strip_by f (map g s) = map g (strip_by f s).
Proof.
  intros H. unfold strip_by, rstrip_by, lstrip_by.
  rewrite (dropwhile_map _ _ _ H), <- map_rev, (dropwhile_map _ _ _ H).
  now rewrite map_rev.
Qed.

Lemma slash_for_backslash_space (c : char) :
  isspace (if (c =? ch_backslash)%N then ch_slash else c) = isspace c.
Proof.
  destruct (c =? ch_backslash)%N eqn:E; [|reflexivity].
  apply N.eqb_eq in E. now subst c.
Qed.

(** X18.  The sanitizer treats a backslash as it treats a slash: turning
    the backslashes of a filename into slashes beforehand changes neither
    what is returned nor what is raised. *)
Theorem validate_filename_backslash (s : pystr) :
  sanitize (replace [ch_backslash] [ch_slash] s) = sanitize s.
Proof.
  destruct s as [|c s]; [reflexivity|].
  apply validate_filename_normal.
  - rewrite replace_char. discriminate.
  - discriminate.
  - unfold normalize_filename. f_equal.
    rewrite !replace_char. unfold strip.
    rewrite (strip_by_map _ _ _ slash_for_backslash_space).
    rewrite map_map. apply map_ext. intros x.
    destruct (x =? ch_backslash)%N eqn:E; [reflexivity | now rewrite E].
Qed.

End Normalization.

(* ================================================================== *)
(** ** Uploads and symbolic links *)
(* ================================================================== *)

Section UploadLinks.

Variable IGNORE_PATTERNS : list pystr.
Variable fnmatch : pystr -> pystr -> bool.
Variable data_dir : Path.
Variable fs : FileSystem.
Variable b64decode : pystr -> option bytes.
Variable max_code_file_bytes : nat.
Variable mkdir : Path -> io_result unit.
Variable write_file : Path -> bytes -> io_result unit.
Variable logger_info : pystr -> list (pystr * pystr) -> bool.

Local Abbreviation sanitize := (validate_filename IGNORE_PATTERNS fnmatch).
Local Abbreviation guard := (get_safe_staging_path IGNORE_PATTERNS fnmatch data_dir fs).
Local Abbreviation upload :=
  (handle_upload_to_staging IGNORE_PATTERNS fnmatch data_dir fs b64decode
     max_code_file_bytes mkdir write_file logger_info).

(** X19.  When the path that the upload asks the guard for, or one of its
    ancestors below the staging root, is a symbolic link, the handler fails
    and neither creates a directory nor writes a file.  The guard is given
    the validated filename [fn'] and validates it once more, to [fn'']. *)
Theorem upload_never_writes_through_symlink
    (pid pid' fn fn' fn'' content encoding : pystr) (c : Path) :
  validate_project_id pid = Return pid' ->
  sanitize fn = Return fn' ->
  sanitize fn' = Return fn'' ->
  In c (walk_paths (staging_root data_dir) (candidate data_dir pid' fn'')) ->
  fs_is_symlink fs c = Done true ->
  exists e, upload pid fn content encoding = ([], Fail e).
Proof.
  intros Hp Hf Hf' Hin Hc.
  pose proof (validate_project_id_idem _ Hp) as Hp'.
  pose proof (@walk_symlink_never_returned IGNORE_PATTERNS fnmatch data_dir fs
                pid' pid' fn' fn'' c Hp' Hf' Hin Hc) as R.
  unfold handle_upload_to_staging, then_, of_result, lift, log, throw, pure.
  rewrite Hp, Hf. destruct (logger_info _ _); [|now eexists].
  destruct (guard pid' fn') as [p|e]; [discriminate|].
  now eexists.
Qed.

End UploadLinks.

Lemma upload_never_writes_through_symlink_witness :
  exists e,
    handle_upload_to_staging [] posix_fnmatch slash_data fs_link_inside
      b64_rejects_all 1024 mkdir_ok write_ok logger_ok
      (lit "abc") (lit "src/utils.py") (lit "hi") (lit "utf-8")
    = ([], Fail e).
Proof.
  apply (@upload_never_writes_through_symlink [] posix_fnmatch slash_data
           fs_link_inside b64_rejects_all 1024 mkdir_ok write_ok logger_ok
           (lit "abc") (lit "abc") (lit "src/utils.py") (lit "src/utils.py")
           (lit "src/utils.py") (lit "hi") (lit "utf-8") (under_abc [lit "src"]));
    try reflexivity.
  vm_compute. tauto.
Defined.

(* ================================================================== *)
(** ** What the sanitizer and the guard do keep *)
(* ================================================================== *)

Section Kept.

Variable IGNORE_PATTERNS : list pystr.
Variable fnmatch : pystr -> pystr -> bool.
Variable data_dir : Path.
Variable fs : FileSystem.

Local Abbreviation sanitize := (validate_filename IGNORE_PATTERNS fnmatch).
Local Abbreviation guard := (get_safe_staging_path IGNORE_PATTERNS fnmatch data_dir fs).

(** X20.  A filename that the sanitizer returns and that does not end with
    a newline is returned unchanged when it is sanitized again. *)
Theorem validate_filename_idempotent_charset (s r : pystr) :
  sanitize s = Return r ->
  last r 0%N <> ch_newline ->
  sanitize r = Return r.
Proof. apply validate_filename_idempotent_no_newline. Qed.

(** X21.  The guard returns a path only if no path of the upward walk,
    from the candidate itself up to the project directory, was a symbolic
    link when tested; with a symbolic link on the walk it does not return. *)
Theorem guard_returns_only_without_links (pid fn : pystr) :
  (forall p, guard pid fn = Return p ->
     exists pid' fn',
       validate_project_id pid = Return pid'
       /\ sanitize fn = Return fn'
       /\ In (candidate data_dir pid' fn')
             (walk_paths (staging_root data_dir) (candidate data_dir pid' fn'))
       /\ In (project_dir data_dir pid')
             (walk_paths (staging_root data_dir) (candidate data_dir pid' fn'))
       /\ forall c,
            In c (walk_paths (staging_root data_dir) (candidate data_dir pid' fn')) ->
            fs_is_symlink fs c = Done false)
  /\ (forall pid' fn' c,
        validate_project_id pid = Return pid' ->
        sanitize fn = Return fn' ->
        In c (walk_paths (staging_root data_dir) (candidate data_dir pid' fn')) ->
        fs_is_symlink fs c = Done true ->
        returns (guard pid fn) = false).
Proof.
  split.
  - intros p G.
    destruct (returned_walk_clean _ _ _ _ _ _ G) as (pid' & fn' & Hp & Hf & W).
    exists pid', fn'. repeat split; try assumption.
    + now apply (walk_paths_ends _ _ data_dir _ _ Hp Hf).
    + unfold walk_paths.
      rewrite (candidate_names _ _ data_dir _ _ Hp Hf),
        (project_dir_names data_dir _ Hp).
      cbn [path_names]. rewrite length_app.
      replace (length (path_names (staging_root data_dir))
               + length (pid' :: split ch_slash fn')
               - length (path_names (staging_root data_dir)))
        with (S (length (split ch_slash fn'))) by (simpl; lia).
      induction (split ch_slash fn') as [|x l IH] using rev_ind.
      * now left.
      * rewrite last_length. cbn [upward]. right.
        replace (path_names (staging_root data_dir) ++ pid' :: l ++ [x])
          with ((path_names (staging_root data_dir) ++ pid' :: l) ++ [x])
          by now rewrite <- app_assoc.
        rewrite parent_snoc. exact IH.
  - intros pid' fn' c Hp Hf Hin Hc.
    exact (@walk_symlink_never_returned _ _ _ _ _ _ _ _ _ Hp Hf Hin Hc).
Qed.

(** X22.  With a symbolic link on the upward walk and no filesystem call
    raising what the guard leaves uncaught, the guard raises a security
    error. *)
Theorem guard_link_security_error (pid pid' fn fn' : pystr) (c : Path) :
  validate_project_id pid = Return pid' ->
  sanitize fn = Return fn' ->
  In c (walk_paths (staging_root data_dir) (candidate data_dir pid' fn')) ->
  fs_is_symlink fs c = Done true ->
  no_uncaught fs data_dir pid' fn' ->
  is_security_error (guard pid fn) = true.
Proof. apply walk_symlink_security_error. Qed.

(** X23.  On a filesystem that resolves name by name, a path that the guard
    returns is the resolved project directory followed by the parts of the
    validated filename, hence strictly below that directory. *)
Theorem guard_returns_below_project (pid fn : pystr) (p : Path) :
  resolves_by_name fs ->
  guard pid fn = Return p ->
  exists pid' fn' base,
    validate_project_id pid = Return pid'
    /\ sanitize fn = Return fn'
    /\ fs_resolve fs (project_dir data_dir pid') = Done base
    /\ p = mkPath (path_anchor base) (path_names base ++ split ch_slash fn')
    /\ strict_descendant p base.
Proof. intros Law. now apply returned_path_below. Qed.

End Kept.

Lemma validate_filename_idempotent_charset_witness :
  validate_filename [lit "*.pem"] posix_fnmatch (lit "docs/a.txt")
  = Return (lit "docs/a.txt").
Proof.
  apply (@validate_filename_idempotent_charset [lit "*.pem"] posix_fnmatch
           (lit " docs\a.txt/") (lit "docs/a.txt")).
  - reflexivity.
  - discriminate.
Defined.

Lemma guard_returns_only_without_links_witness :
  (exists pid' fn',
      validate_project_id (lit "abc") = Return pid'
      /\ validate_filename [] posix_fnmatch (lit "src/utils.py") = Return fn'
      /\ In (candidate slash_data pid' fn')
            (walk_paths (staging_root slash_data) (candidate slash_data pid' fn'))
      /\ In (project_dir slash_data pid')
            (walk_paths (staging_root slash_data) (candidate slash_data pid' fn'))
      /\ forall c,
           In c (walk_paths (staging_root slash_data) (candidate slash_data pid' fn')) ->
           fs_is_symlink plain_fs c = Done false)
  /\ returns (get_safe_staging_path [] posix_fnmatch slash_data fs_final_link
                (lit "abc") (lit "notes.txt")) = false.
Proof.
  split.
  - apply (proj1 (@guard_returns_only_without_links [] posix_fnmatch slash_data
                    plain_fs (lit "abc") (lit "src/utils.py"))
             (under_abc [lit "src"; lit "utils.py"])).
    reflexivity.
  - apply (proj2 (@guard_returns_only_without_links [] posix_fnmatch slash_data
                    fs_final_link (lit "abc") (lit "notes.txt"))
             (lit "abc") (lit "notes.txt") (under_abc [lit "notes.txt"]));
      try reflexivity.
    vm_compute. tauto.
Defined.

Lemma guard_link_security_error_witness :
  is_security_error
    (get_safe_staging_path [] posix_fnmatch slash_data fs_link_inside
       (lit "abc") (lit "src/utils.py")) = true.
Proof.
  apply (@guard_link_security_error [] posix_fnmatch slash_data fs_link_inside
           (lit "abc") (lit "abc") (lit "src/utils.py") (lit "src/utils.py")
           (under_abc [lit "src"])); try reflexivity.
  - vm_compute. tauto.
  - repeat split.
    + discriminate.
    + discriminate.
    + intros q e Hq. vm_compute in Hq.
      destruct Hq as [<-|[<-|[<-|[]]]]; discriminate.
Defined.

Lemma guard_returns_below_project_witness :
  exists pid' fn' base,
    validate_project_id (lit "abc") = Return pid'
    /\ validate_filename [] posix_fnmatch (lit "src/utils.py") = Return fn'
    /\ fs_resolve plain_fs (project_dir slash_data pid') = Done base
    /\ under_abc [lit "src"; lit "utils.py"]
       = mkPath (path_anchor base) (path_names base ++ split ch_slash fn')
    /\ strict_descendant (under_abc [lit "src"; lit "utils.py"]) base.
Proof.
  apply (@guard_returns_below_project [] posix_fnmatch slash_data plain_fs
           (lit "abc") (lit "src/utils.py")
           (under_abc [lit "src"; lit "utils.py"])).
  - exact plain_fs_resolves_by_name.
  - reflexivity.
Defined.

(* ================================================================== *)
(** ** The upload handler and its logger *)
(* ================================================================== *)

Section UploadLogger.

Variable IGNORE_PATTERNS : list pystr.
Variable fnmatch : pystr -> pystr -> bool.
Variable data_dir : Path.
Variable fs : FileSystem.
Variable b64decode : pystr -> option bytes.
Variable max_code_file_bytes : nat.
Variable mkdir : Path -> io_result unit.
Variable write_file : Path -> bytes -> io_result unit.
Variable logger_info : pystr -> list (pystr * pystr) -> bool.

(** X24.  The handler hands the validated filename to the logger under the
    key [filename].  With a logger that raises for that key, the handler
    fails for every request and touches nothing on the disk. *)
Theorem upload_logger_reserved_key (pid fn content encoding : pystr)
    (tr : list effect) (res : result upload_response) :
  (forall msg extra,
      In (lit "filename") (map fst extra) -> logger_info msg extra = false) ->
  handle_upload_to_staging IGNORE_PATTERNS fnmatch data_dir fs b64decode
    max_code_file_bytes mkdir write_file logger_info pid fn content encoding
  = (tr, res) ->
  tr = [] /\ exists e, res = Fail e.
Proof.
  intros Strict.
  unfold handle_upload_to_staging, then_, of_result, lift, log, throw, pure.
  destruct (validate_project_id pid) as [pid'|e1].
  2:{ intros E. injection E as <- <-. split; [reflexivity | now eexists]. }
  destruct (validate_filename IGNORE_PATTERNS fnmatch fn) as [fn'|e2].
  2:{ intros E. injection E as <- <-. split; [reflexivity | now eexists]. }
  rewrite Strict by (simpl; tauto).
  intros E. injection E as <- <-. split; [reflexivity | now eexists].
Qed.

End UploadLogger.

Lemma upload_logger_reserved_key_witness :
  @nil effect = [] /\ exists e, @Fail upload_response OtherException = Fail e.
Proof.
  apply (@upload_logger_reserved_key [] posix_fnmatch slash_data plain_fs
           b64_rejects_all 1024 mkdir_ok write_ok logger_strict
           (lit "abc") (lit "main.py") (lit "hi") (lit "utf-8")).
  - intros msg extra H. unfold logger_strict.
    apply negb_false_iff, existsb_exists.
    apply in_map_iff in H as [kv [K Hin]]. exists kv. split; [exact Hin|].
    rewrite K. reflexivity.
  - reflexivity.
Defined.
